(** * Portfolio toolkit: storage I/O helpers and brokerage data access

    A shallow embedding of [src/in_out.py] and [src/utils.py].

    Python strings are modelled by [string] (the ASCII range; the case
    functions [lower], [upper] and [isupper] act on the letters A-Z and
    a-z).  Python exceptions are modelled by the [result] type, and
    calls into pandas, the file system and the brokerage client by
    explicit oracles and event traces. *)

From Stdlib Require Import ZArith List Bool Arith Lia.
From Stdlib Require Import Strings.String Strings.Ascii DecimalString.
Import ListNotations.

#[local] Set Warnings "-register-all".

Local Open Scope list_scope.
Local Open Scope string_scope.

(** ** Python exceptions *)

(** Every exception the code can meet is a subclass of [Exception]; the
    argument is the text of [str(e)] (for [KeyError], the missing key and
    for [NameError], the undefined name). *)
Inductive exn : Type :=
| IndexError (message : string)
| KeyError (key : string)
| NameError (name : string)
| AttributeError (message : string)
| ValueError (message : string)
| TypeError (message : string)
| AssertionError
| NotImplementedError
| OtherException (message : string).

Inductive result (A : Type) : Type :=
| Ok (a : A)
| Raise (e : exn).

Arguments Ok {A} a.
Arguments Raise {A} e.

Definition bind {A B : Type} (r : result A) (k : A -> result B) : result B :=
  match r with
  | Ok a => k a
  | Raise e => Raise e
  end.

Notation "x <- r ;; k" := (bind r (fun x => k))
  (at level 61, r at next level, right associativity).

(** [try: body except IndexError: handler] *)
Definition except_IndexError {A : Type} (body : result A) (handler : result A)
  : result A :=
  match body with
  | Raise (IndexError _) => handler
  | other => other
  end.

(** ** Python string and list primitives *)

Module PyStr.

Definition backslash : ascii := "092"%char.
Definition bs : string := String backslash EmptyString.

(** [s[n]] *)
Definition char_at (s : string) (n : nat) : result ascii :=
  match String.get n s with
  | Some c => Ok c
  | None => Raise (IndexError "string index out of range")
  end.

(** [s.startswith(p)] *)
Definition startswith (p s : string) : bool := String.prefix p s.

Definition isupper_char (c : ascii) : bool :=
  let n := nat_of_ascii c in (65 <=? n)%nat && (n <=? 90)%nat.

Definition islower_char (c : ascii) : bool :=
  let n := nat_of_ascii c in (97 <=? n)%nat && (n <=? 122)%nat.

Definition lower_char (c : ascii) : ascii :=
  if isupper_char c then ascii_of_nat (nat_of_ascii c + 32) else c.

Definition upper_char (c : ascii) : ascii :=
  if islower_char c then ascii_of_nat (nat_of_ascii c - 32) else c.

Fixpoint map_chars (f : ascii -> ascii) (s : string) : string :=
  match s with
  | EmptyString => EmptyString
  | String c s' => String (f c) (map_chars f s')
  end.

(** [s.lower()], [s.upper()] *)
Definition lower : string -> string := map_chars lower_char.
Definition upper : string -> string := map_chars upper_char.

Fixpoint rev_onto (acc s : string) : string :=
  match s with
  | EmptyString => acc
  | String c s' => rev_onto (String c acc) s'
  end.

Definition rev (s : string) : string := rev_onto EmptyString s.

(** [s.split(sep)] for a non-empty [sep]: the pieces between the
    non-overlapping occurrences of [sep], scanned from the left.  [skip]
    counts the characters of a matched separator still to be passed
    over and [cur] holds the current piece, reversed. *)
Fixpoint split_go (sep : string) (skip : nat) (cur : string) (s : string)
  : list string :=
  match s with
  | EmptyString => [rev cur]
  | String c s' =>
      match skip with
      | S k => split_go sep k cur s'
      | O =>
          if String.prefix sep s
          then rev cur :: split_go sep (String.length sep - 1) EmptyString s'
          else split_go sep 0 (String c cur) s'
      end
  end.

Definition split (sep s : string) : list string :=
  split_go sep 0 EmptyString s.

(** [s.replace(old, new)] for a non-empty [old]. *)
Fixpoint replace_go (old new : string) (skip : nat) (s : string) : string :=
  match s with
  | EmptyString => EmptyString
  | String c s' =>
      match skip with
      | S k => replace_go old new k s'
      | O =>
          if String.prefix old s
          then new ++ replace_go old new (String.length old - 1) s'
          else String c (replace_go old new 0 s')
      end
  end.

(** With an empty [old], Python puts [new] before every character and at
    the end. *)
Fixpoint interleave (new s : string) : string :=
  match s with
  | EmptyString => new
  | String c s' => new ++ String c (interleave new s')
  end.

Definition replace (old new s : string) : string :=
  match old with
  | EmptyString => interleave new s
  | _ => replace_go old new 0 s
  end.

(** [sep.join(parts)] *)
Definition join (sep : string) (parts : list string) : string :=
  String.concat sep parts.

(** [l[0]] and [l[0] = v] on a Python list *)
Definition list_first {A : Type} (l : list A) : result A :=
  match l with
  | x :: _ => Ok x
  | [] => Raise (IndexError "list index out of range")
  end.

Definition list_set_first {A : Type} (v : A) (l : list A) : result (list A) :=
  match l with
  | _ :: t => Ok (v :: t)
  | [] => Raise (IndexError "list assignment index out of range")
  end.

(** [l[n]] for [n >= 0] *)
Definition list_index {A : Type} (l : list A) (n : nat) : result A :=
  match nth_error l n with
  | Some x => Ok x
  | None => Raise (IndexError "list index out of range")
  end.

(** [l[-1]] *)
Fixpoint list_last {A : Type} (l : list A) : result A :=
  match l with
  | [] => Raise (IndexError "list index out of range")
  | [x] => Ok x
  | _ :: t => list_last t
  end.

(** [x in l] for a list of strings *)
Definition str_in (x : string) (l : list string) : bool :=
  existsb (String.eqb x) l.

(** [str(z)] for an integer *)
Definition str_of_Z (z : Z) : string := NilZero.string_of_int (Z.to_int z).

(** [str(e)] for an exception *)
Definition str_exn (e : exn) : string :=
  match e with
  | IndexError m => m
  | KeyError k => "'" ++ k ++ "'"
  | NameError n => "name '" ++ n ++ "' is not defined"
  | AttributeError m => m
  | ValueError m => m
  | TypeError m => m
  | AssertionError => EmptyString
  | NotImplementedError => EmptyString
  | OtherException m => m
  end.

End PyStr.

(** ** [os.path.splitext]

    [posixpath] and [ntpath] both call [genericpath._splitext], with
    separators [/] (POSIX) and [\] with alternative [/] (Windows). *)

Module OsPath.
Import PyStr.

(** [s.rfind(c)] for a single character: the last position of [c], or -1 *)
Fixpoint rfind_from (c : ascii) (i : Z) (found : Z) (s : string) : Z :=
  match s with
  | EmptyString => found
  | String d s' => rfind_from c (i + 1) (if Ascii.eqb d c then i else found) s'
  end.

Definition rfind (c : ascii) (s : string) : Z := rfind_from c 0 (-1) s.

Fixpoint has_non_dot (s : string) : bool :=
  match s with
  | EmptyString => false
  | String c s' => negb (Ascii.eqb c "."%char) || has_non_dot s'
  end.

(** The loop of [_splitext] returns the split at the last dot as soon as
    it meets a character other than a dot between the last separator and
    that dot; [has_non_dot] on that slice is the same test. *)
Definition splitext_generic (p : string) (sep : ascii) (altsep : option ascii)
  : string * string :=
  let sepIndex := rfind sep p in
  let sepIndex :=
    match altsep with
    | Some a => Z.max sepIndex (rfind a p)
    | None => sepIndex
    end in
  let dotIndex := rfind "."%char p in
  if (sepIndex <? dotIndex)%Z then
    let filenameIndex := Z.to_nat (sepIndex + 1) in
    let dot := Z.to_nat dotIndex in
    if has_non_dot (substring filenameIndex (dot - filenameIndex) p)
    then (substring 0 dot p, substring dot (String.length p - dot) p)
    else (p, EmptyString)
  else (p, EmptyString).

(** [os.path] is [ntpath] on Windows and [posixpath] elsewhere. *)
Definition splitext (system : string) (p : string) : string * string :=
  if String.eqb (lower system) "windows"
  then splitext_generic p backslash (Some "/"%char)
  else splitext_generic p "/"%char None.

(** [s[1:]] *)
Definition drop_first (s : string) : string :=
  match s with
  | EmptyString => EmptyString
  | String _ s' => s'
  end.

End OsPath.

(** ** Tables and Python values

    A table has a row index and named columns of cells, in order. *)

Module Pandas.
Import PyStr.

Inductive cell : Type :=
| CNone
| CInt (z : Z)
| CStr (s : string)
| CBytes (b : string).

Record DataFrame : Type := mkFrame {
  index : list cell;
  cols : list (string * list cell)
}.

(** [pd.DataFrame()] *)
Definition empty_frame : DataFrame := mkFrame [] [].

(** [df.columns] and [len(df)] *)
Definition columns (df : DataFrame) : list string := map fst (cols df).
Definition len (df : DataFrame) : Z := Z.of_nat (List.length (index df)).

Fixpoint lookup {A : Type} (k : string) (l : list (string * A)) : option A :=
  match l with
  | [] => None
  | (k', v) :: t => if String.eqb k k' then Some v else lookup k t
  end.

Fixpoint update {A : Type} (k : string) (v : A) (l : list (string * A))
  : list (string * A) :=
  match l with
  | [] => [(k, v)]
  | (k', v') :: t =>
      if String.eqb k k' then (k, v) :: t else (k', v') :: update k v t
  end.

(** [df[c]] *)
Definition getitem (c : string) (df : DataFrame) : result (list cell) :=
  match lookup c (cols df) with
  | Some col => Ok col
  | None => Raise (KeyError c)
  end.

(** [df[c] = col] *)
Definition setitem (c : string) (col : list cell) (df : DataFrame) : DataFrame :=
  mkFrame (index df) (update c col (cols df)).

Definition str_of_cell (c : cell) : string :=
  match c with
  | CNone => "None"
  | CInt z => str_of_Z z
  | CStr s => s
  | CBytes b => "b'" ++ b ++ "'"
  end.

(** [col.astype(str)] *)
Definition astype_str (col : list cell) : list cell :=
  map (fun c => CStr (str_of_cell c)) col.

(** [df.drop(columns=[c], errors="ignore")] *)
Definition drop_column (c : string) (df : DataFrame) : DataFrame :=
  mkFrame (index df)
          (filter (fun kv => negb (String.eqb (fst kv) c)) (cols df)).

Inductive value : Type :=
| VNone
| VBool (b : bool)
| VInt (z : Z)
| VStr (s : string)
| VFrame (df : DataFrame)
| VList (l : list value)
| VDict (d : list (string * value))
| VObject (id : nat).

(** [bool(v)] *)
Definition truthy (v : value) : bool :=
  match v with
  | VNone => false
  | VBool b => b
  | VInt z => negb (z =? 0)%Z
  | VStr s => negb (String.eqb s EmptyString)
  | VFrame _ => true
  | VList l => match l with [] => false | _ => true end
  | VDict d => match d with [] => false | _ => true end
  | VObject _ => true
  end.

(** [v == n] for an integer literal and [v == s] for a string literal;
    [True == 1] and [False == 0] hold in Python. *)
Definition eq_int (v : value) (n : Z) : bool :=
  match v with
  | VInt z => (z =? n)%Z
  | VBool b => ((if b then 1 else 0) =? n)%Z
  | _ => false
  end.

Definition eq_str (v : value) (s : string) : bool :=
  match v with
  | VStr s' => String.eqb s' s
  | _ => false
  end.

(** [len(df) + 1 + df.columns.nlevels] and [len(df.columns) + 1 +
    df.index.nlevels] as the spreadsheet layout uses them; the index and
    the header of a [DataFrame] of this model have one level. *)
Definition row_advance (df : DataFrame) : Z := (len df + 1 + 1)%Z.

Definition col_advance (df : DataFrame) : Z :=
  (Z.of_nat (List.length (columns df)) + 1 + 1)%Z.

End Pandas.

(** ** Library calls, the world and the effect monad

    Every call that leaves the module (pandas, [glob], [open], [pickle],
    [yaml], [joblib], [os.makedirs], a model object's methods) is an
    event.  The world answers a call with a value or an exception, and
    its answer may depend on the calls made before. *)

Module Effects.
Import PyStr Pandas.

Definition kwargs : Type := list (string * value).

Inductive event : Type :=
| Call (fn : string) (args : list value) (kw : kwargs)
| Glob (pattern : string)
| Print (args : list value).

Record World : Type := mkWorld {
  (** [platform.system()] *)
  system : string;
  (** the module global [storage_options], when the application has
      defined it *)
  storage_options : option value;
  (** [glob(pattern)] *)
  glob : list event -> string -> list string;
  (** the answer to a library call, given the calls made so far *)
  respond : list event -> event -> result value;
  (** [os.path.abspath], [os.path.join], [os.path.basename] *)
  os_path_abspath : string -> string;
  os_path_join : string -> string -> string;
  os_path_basename : string -> string
}.

Inductive outcome (A : Type) : Type :=
| Ret (r : result A)
| OutOfFuel.

Arguments Ret {A} r.
Arguments OutOfFuel {A}.

(** A computation maps the calls made so far to the calls made after it
    and its outcome. *)
Definition M (A : Type) : Type := list event -> list event * outcome A.

Definition ret {A : Type} (a : A) : M A := fun h => (h, Ret (Ok a)).
Definition raise {A : Type} (e : exn) : M A := fun h => (h, Ret (Raise e)).
Definition lift {A : Type} (r : result A) : M A := fun h => (h, Ret r).
Definition out_of_fuel {A : Type} : M A := fun h => (h, OutOfFuel).

Definition bindM {A B : Type} (m : M A) (k : A -> M B) : M B :=
  fun h =>
    match m h with
    | (h', Ret (Ok a)) => k a h'
    | (h', Ret (Raise e)) => (h', Ret (Raise e))
    | (h', OutOfFuel) => (h', OutOfFuel)
    end.

Notation "x <~ m ;; k" := (bindM m (fun x => k))
  (at level 61, m at next level, right associativity).
Notation "m ;;; k" := (bindM m (fun _ => k))
  (at level 61, right associativity).

Definition call (w : World) (fn : string) (args : list value) (kw : kwargs)
  : M value :=
  fun h => let ev := Call fn args kw in ((h ++ [ev])%list, Ret (respond w h ev)).

Definition call_glob (w : World) (pattern : string) : M (list string) :=
  fun h => ((h ++ [Glob pattern])%list, Ret (Ok (glob w h pattern))).

Definition print (args : list value) : M unit :=
  fun h => ((h ++ [Print args])%list, Ret (Ok tt)).

(** [try: m except C as e: handler e], for the exceptions [e] of class
    [C], those with [catches e = true] *)
Definition try_catch {A : Type} (catches : exn -> bool) (m : M A)
  (handler : exn -> M A) : M A :=
  fun h =>
    match m h with
    | (h', Ret (Raise e)) =>
        if catches e then handler e h' else (h', Ret (Raise e))
    | other => other
    end.

Definition is_Exception (e : exn) : bool := true.

Definition is_ValueError (e : exn) : bool :=
  match e with ValueError _ => true | _ => false end.

Definition is_AttributeError (e : exn) : bool :=
  match e with AttributeError _ => true | _ => false end.

(** [try: m finally: cleanup] *)
Definition finally {A : Type} (m : M A) (cleanup : M value) : M A :=
  fun h =>
    match m h with
    | (h', Ret r) =>
        match cleanup h' with
        | (h'', Ret (Ok _)) => (h'', Ret r)
        | (h'', Ret (Raise e)) => (h'', Ret (Raise e))
        | (h'', OutOfFuel) => (h'', OutOfFuel)
        end
    | (h', OutOfFuel) => (h', OutOfFuel)
    end.

(** reading the global [storage_options] *)
Definition get_storage_options (w : World) : M value :=
  match storage_options w with
  | Some v => ret v
  | None => raise (NameError "storage_options")
  end.

(** [for x in l: body x], threading a loop variable *)
Fixpoint for_each {A S : Type} (l : list A) (body : A -> S -> M S) (s : S)
  : M S :=
  match l with
  | [] => ret s
  | x :: t => s' <~ body x s ;; for_each t body s'
  end.

End Effects.

(** ** Path helpers of [in_out.py] *)

Module InOut.
Import PyStr OsPath Pandas Effects.

Definition is_win (path : string) : result bool :=
  c1 <- char_at path 1 ;;
  if Ascii.eqb c1 ":"%char
  then c0 <- char_at path 0 ;; Ok (isupper_char c0)
  else Ok false.

Definition is_linux (path : string) : bool := startswith "/" path.

Definition win_to_linux (path : string) : result string :=
  if is_linux path then Ok path
  else
    let parts := split ":" path in
    drive <- list_first parts ;;
    parts <- list_set_first ("/mnt/" ++ lower drive) parts ;;
    let path := join EmptyString parts in
    Ok (replace bs "/" path).

Definition linux_to_win (path : string) : result string :=
  w <- is_win path ;;
  if w then Ok path
  else
    let path := replace "/mnt/" EmptyString path in
    let parts := split "/" path in
    first <- list_first parts ;;
    parts <- list_set_first (upper first ++ ":") parts ;;
    Ok (join bs parts).

(** [system] is the value of [platform.system()]. *)
Definition adj_path (system : string) (path : string) : result string :=
  let path_ := path in
  except_IndexError
    (w <- is_win path ;;
     if w then
       if String.eqb (lower system) "linux" then win_to_linux path
       else Ok path
     else if is_linux path then
       if String.eqb (lower system) "windows" then linux_to_win path
       else Ok path
     else Ok path)
    (Ok path_).

Definition local_folder_s3 : string := "tmp/".

Definition read_preprocess (w : World) (df : value) : M value :=
  match df with
  | VFrame df =>
      let df := drop_column "Unnamed: 0" df in
      if str_in "date" (columns df)
      then call w "DataFrame.pd_cols_to_datetime" [VFrame df] []
      else ret (VFrame df)
  | _ => raise (AttributeError "object has no attribute 'drop'")
  end.

(** The [concat] argument: a string or a list of strings. *)
Inductive concat_arg : Type :=
| ConcatStr (s : string)
| ConcatList (l : list string).

Definition is_parquet (c : concat_arg) : bool :=
  match c with
  | ConcatStr s => String.eqb s "parquet"
  | ConcatList _ => false
  end.

Definition has_key (k : string) (kw : kwargs) : bool :=
  match lookup k kw with Some _ => true | None => false end.

(** [d[k]] on a dict *)
Definition dict_get (k : string) (d : list (string * value)) : result value :=
  match lookup k d with
  | Some v => Ok v
  | None => Raise (KeyError k)
  end.

(** [f(..., storage_options=storage_options, **kwargs)] *)
Definition with_storage (w : World) (kw : kwargs) : M kwargs :=
  so <~ get_storage_options w ;; ret (("storage_options", so) :: kw).

(** [os.path.splitext(filepath)[1][1:]] *)
Definition read_ext (w : World) (filepath : string) : string :=
  drop_first (snd (splitext (system w) filepath)).

(** [read(filepath, concat=None, **kwargs)].  [fuel] bounds the depth of
    the recursive calls. *)
Fixpoint read (fuel : nat) (w : World) (filepath : string)
  (concat : option concat_arg) (kw : kwargs) : M value :=
  match fuel with
  | O => out_of_fuel
  | S fuel' =>
    filepath <~ lift (adj_path (system w) filepath) ;;
    let ext := read_ext w filepath in
    let concat :=
      match concat with
      | None =>
          if String.eqb ext EmptyString then Some (ConcatStr "parquet")
          else None
      | Some c => Some c
      end in
    match concat with
    | Some c =>
        if negb (is_parquet c) then
          let concat :=
            match c with ConcatStr s => [s] | ConcatList l => l end in
          let folder_path := filepath ++ "/" in
          files <~ for_each concat
                     (fun file files =>
                        found <~ call_glob w (folder_path ++ "/*" ++ file) ;;
                        ret (files ++ found)%list) [] ;;
          match files with
          | _ :: _ =>
              dfs <~ for_each files
                       (fun f dfs =>
                          df <~ read fuel' w f None kw ;;
                          ret (dfs ++ [df])%list) [] ;;
              call w "pd.concat" [VList dfs] []
          | [] => ret (VFrame empty_frame)
          end
        else
          kw' <~ with_storage w kw ;;
          df <~ call w "pd.read_parquet" [VStr filepath] kw' ;;
          read_preprocess w df
    | None =>
        if has_key "conn" kw then
          conn <~ lift (dict_get "conn" kw) ;;
          call w "pd.read_sql" [] (("sql", VStr filepath) :: ("con", conn) :: kw)
        else if has_key "model" kw then
          model <~ lift (dict_get "model" kw) ;;
          file <~ (if str_in ext ["pkl"; "pickle"; "joblib"]
                   then call w "open" [VStr filepath; VStr "rb"] []
                   else ret (VStr filepath)) ;;
          let assign :=
            match lookup "assign_model" kw with
            | Some v => truthy v
            | None => false
            end in
          model <~ try_catch is_AttributeError
                     (loaded <~ call w "model.load_model" [model; file] [] ;;
                      ret (if assign then loaded else model))
                     (fun _ =>
                        loaded <~ call w "model.load" [model; file] [] ;;
                        ret (if assign then loaded else model)) ;;
          call w "shutil.rmtree" [VStr local_folder_s3]
               [("ignore_errors", VBool true)] ;;;
          ret model
        else if str_in ext ["xlsx"; "xls"] then
          kw' <~ with_storage w kw ;;
          df <~ call w "pd.read_excel" [VStr filepath] kw' ;;
          read_preprocess w df
        else if String.eqb ext "csv" then
          kw' <~ with_storage w kw ;;
          df <~ call w "pd.read_csv" [VStr filepath] kw' ;;
          read_preprocess w df
        else if String.eqb ext "parquet" then
          kw' <~ with_storage w kw ;;
          df <~ call w "pd.read_parquet" [VStr filepath] kw' ;;
          read_preprocess w df
        else if String.eqb ext "sas7bdat" then
          kw' <~ with_storage w kw ;;
          df <~ call w "pd.read_sas" [VStr filepath] kw' ;;
          (* the decoding of the byte-string columns is pandas code *)
          df <~ call w "decode_object_columns" [df] [] ;;
          read_preprocess w df
        else if String.eqb ext "feather" then
          kw' <~ with_storage w kw ;;
          call w "pd.read_feather" [VStr filepath] kw'
        else if str_in ext ["pkl"; "yml"; "yaml"; "pickle"; "joblib"] then
          f <~ call w "open" [VStr filepath; VStr "rb"] [] ;;
          if str_in ext ["pkl"; "pickle"] then call w "pkl.load" [f] []
          else if String.eqb ext "joblib"
          then call w "joblib.load" [VStr filepath] []
          else call w "yaml.safe_load" [f] []
        else if str_in ext ["txt"] then
          f <~ call w "open" [VStr filepath; VStr "r"] [] ;;
          call w "file.read" [f] []
        else ret VNone
    end
  end.

(** The entries of a sheet bundle are tables: anything else has no
    [to_excel]. *)
Definition as_frame (v : value) : result DataFrame :=
  match v with
  | VFrame df => Ok df
  | _ => Raise (AttributeError "object has no attribute 'to_excel'")
  end.

(** [isinstance(data, pd.DataFrame)] under [assert] *)
Definition assert_frame (data : value) : M DataFrame :=
  match data with
  | VFrame df => ret df
  | _ => raise AssertionError
  end.

(** [str(e).split("column ")[1].split(" ")[0]]: the column the message
    of a failed parquet write names *)
Definition named_column (e : exn) : result string :=
  named <- list_index (split "column " (str_exn e)) 1 ;;
  list_first (split " " named).

Definition write_supported : list string :=
  ["xlsx"; "xls"; "csv"; "parquet"; "yml"; "yaml"; "pkl"; "pickle"; "ubj";
   "joblib"].

(** [write(data, filepath, **kwargs)].  Python's [write] returns nothing;
    the parquet branch assigns into the caller's table, so the model
    returns [data] as the call leaves it.  [fuel] bounds the depth of the
    recursive calls. *)
Fixpoint write (fuel : nat) (w : World) (data : value) (filepath : string)
  (kw : kwargs) : M value :=
  match fuel with
  | O => out_of_fuel
  | S fuel' =>
    filepath <~ lift (adj_path (system w) filepath) ;;
    call w "os.makedirs"
         [VStr (os_path_abspath w (os_path_join w filepath ".."))]
         [("exist_ok", VBool true)] ;;;
    ext <~ lift (list_last (split "." filepath)) ;;
    if negb (str_in ext write_supported) then raise NotImplementedError
    else if str_in ext ["xlsx"; "xls"] then
      match data with
      | VDict sheets =>
          so <~ get_storage_options w ;;
          wr <~ call w "pd.ExcelWriter" [VStr filepath]
                     [("storage_options", so)] ;;
          sheets <~ finally
            (for_each (map fst sheets)
               (fun sheet sheets =>
                  item <~ lift (dict_get sheet sheets) ;;
                  match item with
                  | VFrame _ =>
                      try_catch is_ValueError
                        (kw' <~ with_storage w kw ;;
                         call w "DataFrame.to_excel" [item; wr; VStr sheet] kw' ;;;
                         ret sheets)
                        (fun e =>
                           let base := os_path_basename w filepath in
                           let temp_path :=
                             os_path_join w
                               (replace base EmptyString filepath) sheet
                             ++ ".parquet" in
                           item <~ write fuel' w item temp_path [] ;;
                           print [VStr base; VStr sheet; VStr (str_exn e);
                                  VStr ", saved sheet in parquet"] ;;;
                           let temp_path :=
                             os_path_join w
                               (replace base EmptyString filepath) sheet
                             ++ ".parquet" in
                           item <~ write fuel' w item temp_path [] ;;
                           print [VStr base; VStr sheet; VStr (str_exn e);
                                  VStr ", saved sheet in parquet"] ;;;
                           ret (update sheet item sheets))
                  | VDict bundle =>
                      axis <~ lift (dict_get "axis" bundle) ;;
                      dfs <~ lift (dict_get "dfs" bundle) ;;
                      match dfs with
                      | VList dfs =>
                          if eq_int axis 1 || eq_str axis "row" then
                            for_each dfs
                              (fun df_ row =>
                                 df <~ lift (as_frame df_) ;;
                                 so <~ get_storage_options w ;;
                                 call w "DataFrame.to_excel"
                                      [df_; wr; VStr sheet]
                                      (("startrow", VInt row)
                                       :: ("storage_options", so) :: kw) ;;;
                                 ret (row + row_advance df)%Z) 0%Z ;;;
                            ret sheets
                          else if eq_int axis 0 || eq_str axis "column" then
                            for_each dfs
                              (fun df_ col =>
                                 df <~ lift (as_frame df_) ;;
                                 so <~ get_storage_options w ;;
                                 call w "DataFrame.to_excel"
                                      [df_; wr; VStr sheet]
                                      (("startcol", VInt col)
                                       :: ("storage_options", so) :: kw) ;;;
                                 ret (col + col_advance df)%Z) 0%Z ;;;
                            ret sheets
                          else ret sheets
                      | _ => raise AssertionError
                      end
                  | _ => ret sheets
                  end) sheets)
            (call w "ExcelWriter.__exit__" [wr] []) ;;
          ret (VDict sheets)
      | _ =>
          assert_frame data ;;;
          kw' <~ with_storage w kw ;;
          call w "DataFrame.to_excel" [data; VStr filepath] kw' ;;;
          ret data
      end
    else if String.eqb ext "csv" then
      assert_frame data ;;;
      kw' <~ with_storage w kw ;;
      call w "DataFrame.to_csv" [data; VStr filepath] kw' ;;;
      ret data
    else if String.eqb ext "parquet" then
      df <~ assert_frame data ;;
      try_catch is_Exception
        (kw' <~ with_storage w kw ;;
         call w "DataFrame.to_parquet" [data; VStr filepath] kw' ;;;
         ret data)
        (fun e =>
           object_columns <~ lift (named_column e) ;;
           col <~ lift (getitem object_columns df) ;;
           let data := VFrame (setitem object_columns (astype_str col) df) in
           write fuel' w data filepath kw)
    else if String.eqb ext "feather" then
      assert_frame data ;;;
      kw' <~ with_storage w kw ;;
      call w "DataFrame.to_feather" [data; VStr filepath] kw' ;;;
      ret data
    else if str_in ext ["pkl"; "yml"; "yaml"; "joblib"] then
      let mode := if str_in ext ["pkl"; "joblib"] then "wb" else "w" in
      call w "open" [VStr filepath; VStr mode] [] ;;;
      f <~ call w "open" [VStr filepath; VStr mode] [] ;;
      (if String.eqb ext "pkl" then call w "pkl.dump" [data; f] kw
       else if str_in ext ["yml"; "yaml"] then
         d <~ call w "dict" [data] [] ;; call w "yaml.dump" [d; f] []
       else if String.eqb ext "joblib" then call w "joblib.dump" [data; f] kw
       else ret VNone) ;;;
      call w "file.close" [f] [] ;;;
      ret data
    else if String.eqb ext "ubj" then
      call w "save_model" [data; VStr filepath] [] ;;;
      ret data
    else ret data
  end.

(** *** The calls of a parquet write and its cycles of coercion and retry *)

(** The [os.makedirs] call and the [to_parquet] call of [write], as
    events. *)
Definition makedirs_call (w : World) (filepath : string) : event :=
  Call "os.makedirs"
       [VStr (os_path_abspath w (os_path_join w filepath ".."))]
       [("exist_ok", VBool true)].

Definition to_parquet_call (so : value) (filepath : string) (kw : kwargs)
  (df : DataFrame) : event :=
  Call "DataFrame.to_parquet" [VFrame df; VStr filepath]
       (("storage_options", so) :: kw).

(** The tables handed to [to_parquet], in order. *)
Fixpoint parquet_attempts (h : list event) : list DataFrame :=
  match h with
  | [] => []
  | Call fn (VFrame df :: _) _ :: t =>
      if String.eqb fn "DataFrame.to_parquet"
      then df :: parquet_attempts t
      else parquet_attempts t
  | _ :: t => parquet_attempts t
  end.

(** [retries w so filepath kw h df n h' df']: from the calls [h] and the
    table [df], the world rejects [n] parquet writes in a row, each with
    a message naming a column of the table at hand, and accepts the
    write that follows them; [h'] and [df'] are the calls and the table
    at the end. *)
Inductive retries (w : World) (so : value) (filepath : string) (kw : kwargs)
  : list event -> DataFrame -> nat -> list event -> DataFrame -> Prop :=
| retries_accepted h df a b :
    respond w h (makedirs_call w filepath) = Ok a ->
    respond w (h ++ [makedirs_call w filepath])
            (to_parquet_call so filepath kw df) = Ok b ->
    retries w so filepath kw h df 0
            (h ++ [makedirs_call w filepath;
                   to_parquet_call so filepath kw df]) df
| retries_rejected h df a e c col n h' df' :
    respond w h (makedirs_call w filepath) = Ok a ->
    respond w (h ++ [makedirs_call w filepath])
            (to_parquet_call so filepath kw df) = Raise e ->
    named_column e = Ok c ->
    getitem c df = Ok col ->
    retries w so filepath kw
            (h ++ [makedirs_call w filepath;
                   to_parquet_call so filepath kw df])
            (setitem c (astype_str col) df) n h' df' ->
    retries w so filepath kw h df (S n) h' df'.

Definition read_recognized : list string :=
  ["xlsx"; "xls"; "csv"; "parquet"; "sas7bdat"; "feather"; "pkl"; "pickle";
   "joblib"; "yml"; "yaml"; "txt"].

(** The patterns [read] hands to [glob] for a [concat] argument. *)
Definition concat_patterns (filepath : string) (c : concat_arg) : list string :=
  map (fun file => (filepath ++ "/") ++ "/*" ++ file)
      (match c with ConcatStr s => [s] | ConcatList l => l end).

End InOut.

(** ** Brokerage data access of [utils.py] *)

Module Utils.
Import PyStr.

(** An entry of the instrument master list. *)
Record instrument : Type := mkInstrument {
  name : string;
  symbol : string;
  exch_seg : string;
  token : string
}.

(** The default of the [exchange] argument. *)
Definition NSE : string := "NSE".

(** [instrument["symbol"].split("-")[-1] == "EQ"] *)
Definition is_equity (i : instrument) : result bool :=
  suffix <- list_last (split "-" (symbol i)) ;;
  Ok (String.eqb suffix "EQ").

Fixpoint token_lookup (ticker : string) (instrument_list : list instrument)
  (exchange : string) : result (option string) :=
  match instrument_list with
  | [] => Ok None
  | i :: rest =>
      hit <- (if String.eqb (name i) ticker
              then if String.eqb (exch_seg i) exchange
                   then is_equity i
                   else Ok false
              else Ok false) ;;
      if hit then Ok (Some (token i))
      else token_lookup ticker rest exchange
  end.

Fixpoint symbol_lookup (tok : string) (instrument_list : list instrument)
  (exchange : string) : result (option string) :=
  match instrument_list with
  | [] => Ok None
  | i :: rest =>
      hit <- (if String.eqb (token i) tok
              then if String.eqb (exch_seg i) exchange
                   then is_equity i
                   else Ok false
              else Ok false) ;;
      if hit then Ok (Some (name i))
      else symbol_lookup tok rest exchange
  end.

Fixpoint all_equities (instrument_list : list instrument)
  : result (list instrument) :=
  match instrument_list with
  | [] => Ok []
  | l :: rest =>
      eq <- is_equity l ;;
      eq_list <- all_equities rest ;;
      Ok (if eq then l :: eq_list else eq_list)
  end.

(** *** Paged retrieval of candles

    A [datetime] is a number of minutes; [dt.date.today()] is a number of
    days.  A timestamp of the API carries its wall-clock minutes and its
    UTC offset.  Prices and volumes are compared for equality only and
    are integers (ticks) here. *)

Definition days (n : Z) : Z := (n * 1440)%Z.

Record timestamp : Type := mkTimestamp {
  wall : Z;
  utc_offset : option Z
}.

Record ohlcv : Type := mkOhlcv {
  open : Z;
  high : Z;
  low : Z;
  close : Z;
  volume : Z
}.

(** A row of the API and of the table with the columns
    [date, open, high, low, close, volume]. *)
Record candle : Type := mkCandle {
  date : timestamp;
  bar : ohlcv
}.

(** A row of the table once [date] is its index. *)
Record indexed_row : Type := mkRow {
  idx : timestamp;
  vals : ohlcv
}.

(** The request; [fromdate] and [todate] stand for their
    ["%Y-%m-%d %H:%M"] texts. *)
Record params : Type := mkParams {
  exchange : string;
  symboltoken : option string;
  interval : string;
  fromdate : Z;
  todate : Z
}.

Inductive api_event : Type :=
| Sleep (milliseconds : Z)
| GetCandleData (p : params).

Record Broker : Type := mkBroker {
  (** [dt.date.today()] *)
  today : Z;
  (** the rows under ["data"] in the answer of [obj.getCandleData], given
      the calls made so far *)
  getCandleData : list api_event -> params -> result (list candle)
}.

Record loop_state : Type := mkState {
  temp_st_date : Z;
  temp_end_date : Z;
  df_data : list candle;
  calls : list api_event
}.

(** The [while temp_end_date < end_date] loop; [None] when [fuel] runs
    out. *)
Fixpoint paging (fuel : nat) (obj : Broker) (ticker interval : string)
  (instrument_list : list instrument) (exchange : string) (end_date : Z)
  (s : loop_state) : option (result loop_state) :=
  if (temp_end_date s <? end_date)%Z then
    match fuel with
    | O => None
    | S fuel' =>
        let slept := (calls s ++ [Sleep 400])%list in
        match token_lookup ticker instrument_list NSE with
        | Raise e => Some (Raise e)
        | Ok tok =>
            let p := mkParams exchange tok interval
                              (temp_st_date s) (temp_end_date s) in
            match getCandleData obj slept p with
            | Raise e => Some (Raise e)
            | Ok temp =>
                let temp_st_date := (temp_end_date s + days 1)%Z in
                let temp_end_date := (temp_st_date + days 30)%Z in
                let temp_end_date :=
                  if (end_date <? temp_end_date)%Z then end_date
                  else temp_end_date in
                paging fuel' obj ticker interval instrument_list exchange
                       end_date
                       (mkState temp_st_date temp_end_date
                                (df_data s ++ temp)%list
                                (slept ++ [GetCandleData p])%list)
            end
        end
    end
  else Some (Ok s).

(** Each turn of the loop moves [temp_end_date] 31 days towards
    [end_date], so this many turns are enough. *)
Definition paging_fuel (temp_end_date end_date : Z) : nat :=
  S (Z.to_nat ((end_date - temp_end_date) / days 31)).

(** [df.set_index("date")] *)
Definition set_index_date (df : list candle) : list indexed_row :=
  map (fun c => mkRow (date c) (bar c)) df.

(** [index.tz_localize(None)] *)
Definition tz_localize_none (df : list indexed_row) : list indexed_row :=
  map (fun r => mkRow (mkTimestamp (wall (idx r)) None) (vals r)) df.

Definition ohlcv_eqb (a b : ohlcv) : bool :=
  (open a =? open b)%Z && (high a =? high b)%Z && (low a =? low b)%Z
  && (close a =? close b)%Z && (volume a =? volume b)%Z.

(** [df.drop_duplicates(keep="first")]: a row is a duplicate when an
    earlier row has the same values in every column; pandas leaves the
    index out of the comparison. *)
Fixpoint drop_duplicates_from (seen : list ohlcv) (df : list indexed_row)
  : list indexed_row :=
  match df with
  | [] => []
  | r :: rest =>
      if existsb (ohlcv_eqb (vals r)) seen
      then drop_duplicates_from seen rest
      else r :: drop_duplicates_from (vals r :: seen) rest
  end.

Definition drop_duplicates (df : list indexed_row) : list indexed_row :=
  drop_duplicates_from [] df.

(** [hist_data_extended]: the table returned and the calls made. *)
Definition hist_data_extended (obj : Broker) (ticker : string) (duration : Z)
  (interval : string) (instrument_list : list instrument) (exchange : string)
  : option (result (list indexed_row * list api_event)) :=
  let st_date := (today obj - duration)%Z in
  let end_date := (today obj - 1)%Z in
  let st_date := (days st_date + 3 * 60 + 30)%Z in
  let end_date := days end_date in
  let temp_st_date := st_date in
  let temp_end_date := (st_date + days 30)%Z in
  match paging (paging_fuel temp_end_date end_date) obj ticker interval
               instrument_list exchange end_date
               (mkState temp_st_date temp_end_date [] []) with
  | None => None
  | Some (Raise e) => Some (Raise e)
  | Some (Ok s) =>
      let df := set_index_date (df_data s) in
      (* [pd.to_datetime] leaves parsed timestamps as they are *)
      let df := tz_localize_none df in
      Some (Ok (drop_duplicates df, calls s))
  end.

(** The requests among the calls. *)
Definition requests (l : list api_event) : list params :=
  flat_map (fun e => match e with GetCandleData p => [p] | Sleep _ => [] end) l.

End Utils.

(** ** Scenarios

    Concrete brokers and worlds on which the functions are run. *)

Module Scenario.
Import PyStr Pandas Effects InOut Utils.

(** A broker that answers every request with no row. *)
Definition quiet_broker : Broker :=
  mkBroker 19000 (fun _ _ => Ok []).

(** A time of the first window of [duration = 65] and one of the
    second, at UTC+05:30. *)
Definition first_time : timestamp := mkTimestamp 27270000 (Some 330%Z).
Definition second_time : timestamp := mkTimestamp 27320000 (Some 330%Z).

Definition bar_a : ohlcv := mkOhlcv 100 110 90 105 5000.
Definition bar_b : ohlcv := mkOhlcv 101 111 91 106 6000.

(** The first window and the later ones carry a row with the same
    timestamp and different values. *)
Definition same_time_broker : Broker :=
  mkBroker 19000
    (fun made _ =>
       match requests made with
       | [] => Ok [mkCandle first_time bar_a]
       | _ => Ok [mkCandle first_time bar_b]
       end).

(** The first window and the later ones carry a row with the same values
    at different timestamps. *)
Definition flat_price_broker : Broker :=
  mkBroker 19000
    (fun made _ =>
       match requests made with
       | [] => Ok [mkCandle first_time bar_a]
       | _ => Ok [mkCandle second_time bar_a]
       end).

(** A Linux host with [storage_options] defined, where every library
    call succeeds and [glob] finds nothing. *)
Definition plain_world : World :=
  mkWorld "Linux" (Some VNone) (fun _ _ => []) (fun _ _ => Ok VNone)
          (fun p => p) (fun a b => a ++ "/" ++ b) (fun p => p).

Definition is_text (col : list cell) : bool :=
  forallb (fun c => match c with CStr _ => true | _ => false end) col.

Definition needs_text (c : string) (df : DataFrame) : bool :=
  match lookup c (cols df) with
  | Some col => negb (is_text col)
  | None => false
  end.

(** A world whose parquet writer rejects a table while its column [a],
    and then its column [b], holds a cell that is not text. *)
Definition picky_world : World :=
  mkWorld "Linux" (Some VNone) (fun _ _ => [])
          (fun _ ev =>
             match ev with
             | Call fn (VFrame df :: _) _ =>
                 if String.eqb fn "DataFrame.to_parquet" then
                   if needs_text "a" df then
                     Raise (OtherException
                              "Conversion failed for column a with type object")
                   else if needs_text "b" df then
                     Raise (OtherException
                              "Conversion failed for column b with type object")
                   else Ok VNone
                 else Ok VNone
             | _ => Ok VNone
             end)
          (fun p => p) (fun a b => a ++ "/" ++ b) (fun p => p).

Definition mixed : DataFrame :=
  mkFrame [CInt 0; CInt 1]
          [("a", [CInt 1; CStr "x"]); ("b", [CNone; CStr "y"]);
           ("c", [CInt 3; CInt 4])].

Definition mixed_a : DataFrame :=
  mkFrame [CInt 0; CInt 1]
          [("a", [CStr "1"; CStr "x"]); ("b", [CNone; CStr "y"]);
           ("c", [CInt 3; CInt 4])].

Definition mixed_ab : DataFrame :=
  mkFrame [CInt 0; CInt 1]
          [("a", [CStr "1"; CStr "x"]); ("b", [CStr "None"; CStr "y"]);
           ("c", [CInt 3; CInt 4])].

End Scenario.

(** ** Windows paths by drive and segments *)

Module PathShape.
Import PyStr.

(** Every segment preceded by the separator. *)
Fixpoint sep_join (sep : ascii) (segments : list string) : string :=
  match segments with
  | [] => EmptyString
  | seg :: rest => String sep (seg ++ sep_join sep rest)
  end.

(** [D:\seg1\...\segn] *)
Definition windows_path (drive : ascii) (segments : list string) : string :=
  String drive (String ":"%char (sep_join backslash segments)).

(** [/mnt/d/seg1/.../segn] *)
Definition posix_path (drive : ascii) (segments : list string) : string :=
  "/mnt/" ++ String (lower_char drive) (sep_join "/"%char segments).

(** [c not in s] *)
Fixpoint free_of (c : ascii) (s : string) : bool :=
  match s with
  | EmptyString => true
  | String a rest => negb (Ascii.eqb c a) && free_of c rest
  end.

(** A segment holds no colon, backslash or slash. *)
Definition plain (seg : string) : bool :=
  free_of ":"%char seg && free_of backslash seg && free_of "/"%char seg.

(** [old in s] *)
Fixpoint contains (old s : string) : bool :=
  String.prefix old s
  || match s with
     | EmptyString => false
     | String _ rest => contains old rest
     end.

End PathShape.

(** ** Further functions of [in_out.py] *)

Module InOutMore.
Import PyStr OsPath Pandas Effects InOut.

(** [listdir(path)] *)
Definition listdir (w : World) (path : string) : M value :=
  path <~ lift (adj_path (system w) path) ;;
  call w "os.listdir" [VStr path] [].

(** [isdir(filepath)] *)
Definition isdir (w : World) (filepath : string) : M value :=
  call w "os.path.isdir" [VStr filepath] [].

(** [exists(filepath, adj=True)] *)
Definition exists_ (w : World) (filepath : string) (adj : bool) : M value :=
  filepath <~ (if adj then lift (adj_path (system w) filepath)
               else ret filepath) ;;
  call w "os.path.exists" [VStr filepath] [].

(** A computation that never runs out of fuel, whatever was called
    before. *)
Definition finishes {A : Type} (m : M A) : Prop :=
  forall h, snd (m h) <> OutOfFuel.

(** The calls of a trace whose function has the given name. *)
Definition calls_of (fn : string) (h : list event) : list event :=
  filter (fun ev => match ev with
                    | Call f _ _ => String.eqb f fn
                    | _ => false
                    end) h.

End InOutMore.

(** ** Session set-up of [utils.py] *)

Module Session.
Import PyStr Pandas Effects InOut.

(** [c.isspace()] in the ASCII range *)
Definition isspace_char (c : ascii) : bool :=
  let n := nat_of_ascii c in
  ((9 <=? n)%nat && (n <=? 13)%nat) || ((28 <=? n)%nat && (n <=? 32)%nat).

(** [s.split()]: the pieces between runs of whitespace; [cur] holds the
    current piece, reversed. *)
Fixpoint split_ws_go (cur : string) (s : string) : list string :=
  match s with
  | EmptyString =>
      match cur with EmptyString => [] | _ => [rev cur] end
  | String c s' =>
      if isspace_char c then
        match cur with
        | EmptyString => split_ws_go EmptyString s'
        | _ => rev cur :: split_ws_go EmptyString s'
        end
      else split_ws_go (String c cur) s'
  end.

Definition split_ws (s : string) : list string := split_ws_go EmptyString s.

(** [v.split()] on a value: only text has the method here. *)
Definition value_split (v : value) : result (list string) :=
  match v with
  | VStr s => Ok (split_ws s)
  | _ => Raise (AttributeError "object has no attribute 'split'")
  end.

Definition get_internet_time (w : World) : M value :=
  call w "datetime.now" [VStr "pytz.utc"] [].

Definition generate_totp (w : World) (key : string) : M value :=
  internet_time <~ get_internet_time w ;;
  stamp <~ call w "datetime.timestamp" [internet_time] [] ;;
  unix_timestamp <~ call w "int" [stamp] [] ;;
  totp <~ call w "TOTP" [VStr key] [] ;;
  call w "TOTP.at" [totp; unix_timestamp] [].

Definition credentials_path : string := "/mnt/d/personal/One/credentials.txt".

Definition instrument_url : string :=
  "https://margincalculator.angelbroking.com/OpenAPI_File/files/OpenAPIScripMaster.json".

(** [get_connection] from the split credentials on. *)
Definition connect_with (w : World) (key_secret : list string) : M value :=
  api_key <~ lift (list_index key_secret 0) ;;
  obj <~ call w "SmartConnect" [] [("api_key", VStr api_key)] ;;
  client <~ lift (list_index key_secret 2) ;;
  password <~ lift (list_index key_secret 3) ;;
  secret <~ lift (list_index key_secret 4) ;;
  otp <~ generate_totp w secret ;;
  data <~ call w "SmartConnect.generateSession"
               [obj; VStr client; VStr password; otp] [] ;;
  response <~ call w "urllib.request.urlopen" [VStr instrument_url] [] ;;
  body <~ call w "response.read" [response] [] ;;
  instrument_list <~ call w "json.loads" [body] [] ;;
  ret (VList [obj; data; instrument_list]).

(** [get_connection()]; [fuel] is the one of [read]. *)
Definition get_connection (fuel : nat) (w : World) : M value :=
  text <~ read fuel w credentials_path None [] ;;
  key_secret <~ lift (value_split text) ;;
  connect_with w key_secret.

End Session.

(** ** Further functions of [utils.py] *)

Module UtilsMore.
Import PyStr Pandas Utils.

(** The [k]-th window of [hist_data_extended]: 30 days long, 31 days
    after the one before. *)
Definition window (exchange : string) (tok : option string)
  (interval : string) (st_date : Z) (k : nat) : params :=
  mkParams exchange tok interval
           (st_date + days 31 * Z.of_nat k)%Z
           (st_date + days 31 * Z.of_nat k + days 30)%Z.

(** The calls of the [k]-th window: the pause, then the request. *)
Definition window_calls (exchange : string) (tok : option string)
  (interval : string) (st_date : Z) (k : nat) : list api_event :=
  [Sleep 400; GetCandleData (window exchange tok interval st_date k)].

(** The number of windows that end before [end_date]. *)
Definition window_count (st_date end_date : Z) : nat :=
  Z.to_nat ((end_date - (st_date + days 30) + days 31 - 1) / days 31).

(** The loop of [hist_data] over [tickers]: [acc] is [hist_data_tickers]
    and [made] the calls made so far; [now] is [dt.datetime.now()] in
    minutes, read at each turn. *)
Fixpoint hist_data_loop (obj : Broker) (now : list api_event -> Z)
  (tickers : list string) (duration : Z) (interval : string)
  (instrument_list : list instrument) (exchange : string)
  (acc : list (string * list indexed_row)) (made : list api_event)
  : result (list (string * list indexed_row) * list api_event) :=
  match tickers with
  | [] => Ok (acc, made)
  | ticker :: rest =>
      tok <- token_lookup ticker instrument_list NSE ;;
      let p := mkParams exchange tok interval
                        (days (today obj - duration)) (now made) in
      hist_data <- getCandleData obj made p ;;
      let df_data := set_index_date hist_data in
      (* [pd.to_datetime] leaves parsed timestamps as they are *)
      let df_data := tz_localize_none df_data in
      hist_data_loop obj now rest duration interval instrument_list exchange
                     (update ticker df_data acc)
                     (made ++ [GetCandleData p])%list
  end.

(** [hist_data]: the mapping from ticker to table and the calls made. *)
Definition hist_data (obj : Broker) (now : list api_event -> Z)
  (tickers : list string) (duration : Z) (interval : string)
  (instrument_list : list instrument) (exchange : string)
  : result (list (string * list indexed_row) * list api_event) :=
  hist_data_loop obj now tickers duration interval instrument_list exchange
                 [] [].

(** The tickers in the order of their first occurrence. *)
Fixpoint first_occurrences (seen : list string) (tickers : list string)
  : list string :=
  match tickers with
  | [] => []
  | t :: rest =>
      if str_in t seen then first_occurrences seen rest
      else t :: first_occurrences (t :: seen) rest
  end.

(** An instrument whose symbol ends in [-EQ], and the instruments a
    lookup by name or by token stops at. *)
Definition equityb (i : instrument) : bool :=
  match is_equity i with
  | Ok b => b
  | Raise _ => false
  end.

Definition name_hit (ticker exchange : string) (i : instrument) : bool :=
  String.eqb (name i) ticker && String.eqb (exch_seg i) exchange && equityb i.

Definition token_hit (tok exchange : string) (i : instrument) : bool :=
  String.eqb (token i) tok && String.eqb (exch_seg i) exchange && equityb i.

End UtilsMore.

(** ** Further scenarios *)

Module ScenarioMore.
Import PyStr Pandas Effects InOut Utils Scenario.

(** [plain_world] without [storage_options]. *)
Definition unconfigured_world : World :=
  mkWorld "Linux" None (fun _ _ => []) (fun _ _ => Ok VNone)
          (fun p => p) (fun a b => a ++ "/" ++ b) (fun p => p).

(** A world whose parquet writer fails for a reason that names no
    column. *)
Definition full_disk_world : World :=
  mkWorld "Linux" (Some VNone) (fun _ _ => [])
          (fun _ ev =>
             match ev with
             | Call fn (VFrame _ :: _) _ =>
                 if String.eqb fn "DataFrame.to_parquet"
                 then Raise (OtherException "disk full")
                 else Ok VNone
             | _ => Ok VNone
             end)
          (fun p => p) (fun a b => a ++ "/" ++ b) (fun p => p).

(** A world whose spreadsheet reader returns a mapping of sheets. *)
Definition sheets_world : World :=
  mkWorld "Linux" (Some VNone) (fun _ _ => [])
          (fun _ _ => Ok (VDict [("Sheet1", VFrame mixed)]))
          (fun p => p) (fun a b => a ++ "/" ++ b) (fun p => p).

(** A world whose files hold the given text. *)
Definition text_world (text : string) : World :=
  mkWorld "Linux" (Some VNone) (fun _ _ => [])
          (fun _ ev =>
             match ev with
             | Call fn _ _ =>
                 if String.eqb fn "file.read" then Ok (VStr text)
                 else Ok (VObject 0)
             | _ => Ok VNone
             end)
          (fun p => p) (fun a b => a ++ "/" ++ b) (fun p => p).

(** A world whose [to_excel] rejects every table; its [os.path.basename]
    is the one of [out/book.xlsx]. *)
Definition excel_world : World :=
  mkWorld "Linux" (Some VNone) (fun _ _ => [])
          (fun _ ev =>
             match ev with
             | Call fn _ _ =>
                 if String.eqb fn "DataFrame.to_excel"
                 then Raise (ValueError "cannot write")
                 else Ok VNone
             | _ => Ok VNone
             end)
          (fun p => p) (fun a b => a ++ b) (fun _ => "book.xlsx").

(** A world whose [to_excel] fails with an exception that is not a
    [ValueError]. *)
Definition type_error_world : World :=
  mkWorld "Linux" (Some VNone) (fun _ _ => [])
          (fun _ ev =>
             match ev with
             | Call fn _ _ =>
                 if String.eqb fn "DataFrame.to_excel"
                 then Raise (TypeError "unsupported cell")
                 else Ok VNone
             | _ => Ok VNone
             end)
          (fun p => p) (fun a b => a ++ b) (fun _ => "book.xlsx").

End ScenarioMore.

(** ** The layout of a sheet bundle *)

Module Layout.
Import PyStr Pandas Effects InOut.





End Layout.

(** * Properties *)

Import PyStr OsPath Pandas Effects InOut Utils Scenario PathShape.
Import InOutMore Session UtilsMore ScenarioMore Layout.

(** ** Strings *)

Section SplitFacts.

Lemma split_go_nonempty (sep : string) (s : string) :
  forall skip cur, exists h t, split_go sep skip cur s = h :: t.
Proof.
  induction s as [|c s IH]; intros skip cur.
  - cbn. eauto.
  - cbn [split_go]. destruct skip as [|k].
    + destruct (String.prefix sep (String c s)); eauto.
    + apply IH.
Qed.

Lemma split_nonempty (sep s : string) : exists h t, split sep s = h :: t.
Proof. apply split_go_nonempty. Qed.

Lemma list_first_split (sep s : string) :
  exists h, list_first (split sep s) = Ok h.
Proof.
  destruct (split_nonempty sep s) as (h & t & E). rewrite E. cbn. eauto.
Qed.

Lemma list_last_cons {A : Type} (x : A) (l : list A) :
  exists y, list_last (x :: l) = Ok y.
Proof.
  revert x. induction l as [|z l IH]; intros x.
  - cbn. eauto.
  - destruct (IH z) as (y & E). exists y.
    change (list_last (x :: z :: l)) with (list_last (z :: l)). exact E.
Qed.

Lemma list_last_split (sep s : string) :
  exists y, list_last (split sep s) = Ok y.
Proof.
  destruct (split_nonempty sep s) as (h & t & E). rewrite E.
  apply list_last_cons.
Qed.

End SplitFacts.

(** ** Path helpers *)



Lemma concat_cons_starts (x : string) (t : list string) :
  exists rest, String.concat EmptyString (x :: t) = x ++ rest.
Proof.
  destruct t as [|y t]; cbn.
  - exists EmptyString. induction x; cbn; congruence.
  - eauto.
Qed.

(** [win_to_linux] always returns, and what it returns is POSIX-style. *)
Lemma win_to_linux_is_linux (path : string) :
  exists q, win_to_linux path = Ok q /\ is_linux q = true.
Proof.
  unfold win_to_linux. destruct (is_linux path) eqn:L.
  - eauto.
  - destruct (split_nonempty ":" path) as (h & t & E). rewrite E. cbn [list_first list_set_first bind].
    unfold join. destruct (concat_cons_starts ("/mnt/" ++ lower h) t) as (rest & ->).
    eexists. split; [reflexivity|]. reflexivity.
Qed.

(** [linux_to_win] raises only when [is_win] does. *)
Lemma linux_to_win_returns (path : string) (w : bool) :
  is_win path = Ok w -> exists q, linux_to_win path = Ok q.
Proof.
  intros W. unfold linux_to_win. rewrite W. cbn [bind]. destruct w; [eauto|].
  destruct (split_nonempty "/" (replace "/mnt/" EmptyString path)) as (h & t & E).
  rewrite E. cbn. eauto.
Qed.

(** C9. For every path [p] that [is_win] accepts, [win_to_linux] is
    idempotent after its first application: the first application
    returns a POSIX-style path [q], and [win_to_linux] returns a
    POSIX-style path unchanged. *)
Theorem win_to_linux_idempotent (p : string) :
  is_win p = Ok true ->
  exists q, win_to_linux p = Ok q /\ is_linux q = true /\
            win_to_linux q = Ok q.
Proof.
  intros _. destruct (win_to_linux_is_linux p) as (q & E & L).
  exists q. repeat split; trivial.
  unfold win_to_linux. now rewrite L.
Qed.

Lemma win_to_linux_idempotent_witness :
  is_win ("D:" ++ bs ++ "data") = Ok true /\
  exists q, win_to_linux ("D:" ++ bs ++ "data") = Ok q /\
            is_linux q = true /\ win_to_linux q = Ok q.
Proof.
  split; [reflexivity|].
  apply (win_to_linux_idempotent ("D:" ++ bs ++ "data")). reflexivity.
Defined.

Example win_to_linux_data :
  win_to_linux ("D:" ++ bs ++ "data") = Ok "/mnt/d/data" /\
  win_to_linux "/mnt/d/data" = Ok "/mnt/d/data".
Proof. split; reflexivity. Qed.



Example adj_path_examples :
  adj_path "Linux" ("C:" ++ bs ++ "Users" ++ bs ++ "x") = Ok "/mnt/c/Users/x" /\
  adj_path "Windows" "/mnt/c/Users/x" = Ok ("C:" ++ bs ++ "Users" ++ bs ++ "x") /\
  adj_path "Windows" ("C:" ++ bs ++ "Users") = Ok ("C:" ++ bs ++ "Users") /\
  adj_path "Darwin" "/tmp/x" = Ok "/tmp/x" /\
  adj_path "Windows" "/" = Ok "/" /\
  is_win EmptyString = Raise (IndexError "string index out of range").
Proof. repeat split; reflexivity. Qed.

(** ** The round trip of a Windows path *)

Lemma prefix_char (c a : ascii) (s : string) :
  String.prefix (String c EmptyString) (String a s) = Ascii.eqb c a.
Proof.
  cbn [String.prefix]. destruct (ascii_dec c a) as [->|N].
  - rewrite Ascii.eqb_refl. now destruct s.
  - symmetry. now apply Ascii.eqb_neq.
Qed.

Lemma append_nil_r (s : string) : s ++ EmptyString = s.
Proof. induction s; cbn; congruence. Qed.

Lemma append_assoc (a b c : string) : (a ++ b) ++ c = a ++ (b ++ c).
Proof. induction a; cbn; congruence. Qed.

Lemma rev_onto_app (s acc : string) :
  rev_onto acc s = rev_onto EmptyString s ++ acc.
Proof.
  revert acc. induction s as [|c s IH]; intros acc; [reflexivity|].
  cbn [rev_onto]. rewrite (IH (String c acc)), (IH (String c EmptyString)).
  rewrite append_assoc. reflexivity.
Qed.

Lemma rev_cons (a : ascii) (cur : string) :
  rev (String a cur) = rev cur ++ String a EmptyString.
Proof. unfold rev. cbn [rev_onto]. apply rev_onto_app. Qed.

Lemma split_free (c : ascii) (s : string) :
  free_of c s = true ->
  forall cur, split_go (String c EmptyString) 0 cur s = [rev cur ++ s].
Proof.
  induction s as [|a s IH]; intros F cur.
  - cbn. now rewrite append_nil_r.
  - cbn [free_of] in F. apply andb_prop in F. destruct F as [N F].
    cbn [split_go]. rewrite prefix_char.
    apply negb_true_iff in N. rewrite N, (IH F), rev_cons.
    now rewrite append_assoc.
Qed.

Lemma split_sep (c : ascii) (x rest : string) :
  free_of c x = true ->
  forall cur,
    split_go (String c EmptyString) 0 cur (x ++ String c rest)
    = (rev cur ++ x) :: split_go (String c EmptyString) 0 EmptyString rest.
Proof.
  induction x as [|a x IH]; intros F cur.
  - cbn [append split_go]. rewrite prefix_char, Ascii.eqb_refl.
    cbn [String.length Nat.sub]. now rewrite append_nil_r.
  - cbn [free_of] in F. apply andb_prop in F. destruct F as [N F].
    cbn [append split_go]. rewrite prefix_char.
    apply negb_true_iff in N. rewrite N, (IH F), rev_cons.
    now rewrite append_assoc.
Qed.

Lemma split_sep_join (c : ascii) (segments : list string) :
  Forall (fun seg => free_of c seg = true) segments ->
  forall x cur,
    free_of c x = true ->
    split_go (String c EmptyString) 0 cur (x ++ sep_join c segments)
    = (rev cur ++ x) :: segments.
Proof.
  induction 1 as [|seg rest S _ IH]; intros x cur F.
  - cbn [sep_join]. rewrite append_nil_r. now apply split_free.
  - cbn [sep_join]. rewrite split_sep by exact F. f_equal.
    now rewrite IH.
Qed.

Lemma replace_char (c c' : ascii) (s : string) :
  replace_go (String c EmptyString) (String c' EmptyString) 0 s
  = map_chars (fun a => if Ascii.eqb c a then c' else a) s.
Proof.
  induction s as [|a s IH]; [reflexivity|].
  cbn [replace_go map_chars]. rewrite prefix_char.
  destruct (Ascii.eqb c a); cbn [String.length Nat.sub append]; now rewrite IH.
Qed.

Lemma map_chars_app (f : ascii -> ascii) (a b : string) :
  map_chars f (a ++ b) = map_chars f a ++ map_chars f b.
Proof. induction a; cbn; congruence. Qed.

Lemma map_chars_free (c c' : ascii) (s : string) :
  free_of c s = true ->
  map_chars (fun a => if Ascii.eqb c a then c' else a) s = s.
Proof.
  induction s as [|a s IH]; intros F; [reflexivity|].
  cbn [free_of] in F. apply andb_prop in F. destruct F as [N F].
  apply negb_true_iff in N. cbn [map_chars]. now rewrite N, IH.
Qed.

Lemma map_chars_sep_join (c c' : ascii) (segments : list string) :
  Forall (fun seg => free_of c seg = true) segments ->
  map_chars (fun a => if Ascii.eqb c a then c' else a) (sep_join c segments)
  = sep_join c' segments.
Proof.
  induction 1 as [|seg rest S _ IH]; [reflexivity|].
  cbn [sep_join map_chars]. rewrite Ascii.eqb_refl, map_chars_app, IH.
  now rewrite map_chars_free.
Qed.

Lemma replace_absent (old new s : string) :
  contains old s = false -> replace_go old new 0 s = s.
Proof.
  induction s as [|a s IH]; intros C; [reflexivity|].
  cbn [contains] in C. apply orb_false_elim in C. destruct C as [P C].
  cbn [replace_go]. now rewrite P, IH.
Qed.

Lemma concat_sep_join (c : ascii) (segments : list string) :
  forall x,
    String.concat (String c EmptyString) (x :: segments)
    = x ++ sep_join c segments.
Proof.
  induction segments as [|seg rest IH]; intros x.
  - cbn. now rewrite append_nil_r.
  - change (String.concat (String c EmptyString) (x :: seg :: rest))
      with (x ++ String c EmptyString
              ++ String.concat (String c EmptyString) (seg :: rest)).
    now rewrite IH.
Qed.

Lemma upper_letter_facts (d : ascii) :
  isupper_char d = true ->
  upper_char (lower_char d) = d /\
  Ascii.eqb backslash (lower_char d) = false /\
  Ascii.eqb "/"%char (lower_char d) = false /\
  Ascii.eqb "/"%char d = false /\
  Ascii.eqb ":"%char d = false.
Proof.
  destruct d as [[] [] [] [] [] [] [] []]; vm_compute; intros H;
    (discriminate H || (repeat split; reflexivity)).
Qed.

Lemma plain_parts (segments : list string) :
  Forall (fun seg => plain seg = true) segments ->
  Forall (fun seg => free_of ":"%char seg = true) segments /\
  Forall (fun seg => free_of backslash seg = true) segments /\
  Forall (fun seg => free_of "/"%char seg = true) segments.
Proof.
  induction 1 as [|seg rest P _ (A & B & C)]; [repeat split; constructor|].
  unfold plain in P. apply andb_prop in P. destruct P as [P P3].
  apply andb_prop in P. destruct P as [P1 P2].
  repeat split; constructor; assumption.
Qed.

Lemma free_of_sep_join (c sep : ascii) (segments : list string) :
  Ascii.eqb c sep = false ->
  Forall (fun seg => free_of c seg = true) segments ->
  free_of c (sep_join sep segments) = true.
Proof.
  intros N. induction 1 as [|seg rest S _ IH]; [reflexivity|].
  cbn [sep_join free_of]. rewrite N. cbn [negb andb].
  clear -S IH. induction seg as [|a seg IHs]; [exact IH|].
  cbn [free_of append] in *. apply andb_prop in S. destruct S as [-> S].
  cbn [andb]. now apply IHs.
Qed.

(** The round trip returns a Windows path of an upper-case drive letter
    and segments free of colons, slashes and backslashes, as long as the
    POSIX form holds no [/mnt/] after its prefix. *)
Lemma round_trip_plain (drive : ascii) (segments : list string) :
  isupper_char drive = true ->
  Forall (fun seg => plain seg = true) segments ->
  contains "/mnt/" (String (lower_char drive) (sep_join "/"%char segments))
  = false ->
  win_to_linux (windows_path drive segments) = Ok (posix_path drive segments)
  /\ linux_to_win (posix_path drive segments)
     = Ok (windows_path drive segments).
Proof.
  intros U P C.
  destruct (upper_letter_facts drive U) as (UL & B & S & SD & CD).
  destruct (plain_parts segments P) as (PC & PB & PS).
  split.
  - unfold win_to_linux, is_linux, startswith, windows_path.
    rewrite prefix_char, SD. unfold split.
    change (String drive (String ":"%char (sep_join backslash segments)))
      with (String drive EmptyString
              ++ String ":"%char (sep_join backslash segments)).
    rewrite split_sep by (cbn [free_of]; now rewrite CD).
    rewrite split_free
      by (apply free_of_sep_join; [reflexivity | exact PC]).
    cbn [list_first list_set_first bind join String.concat rev rev_onto
         append lower map_chars].
    unfold replace, bs. rewrite replace_char.
    cbn [map_chars]. rewrite B.
    change (Ascii.eqb backslash "/"%char) with false.
    change (Ascii.eqb backslash "m"%char) with false.
    change (Ascii.eqb backslash "n"%char) with false.
    change (Ascii.eqb backslash "t"%char) with false.
    cbv iota. rewrite map_chars_sep_join by exact PB. reflexivity.
  - unfold linux_to_win, posix_path.
    change (is_win ("/mnt/" ++ String (lower_char drive)
                      (sep_join "/"%char segments))) with (@Ok bool false).
    cbn [bind]. unfold replace.
    change (replace_go "/mnt/" EmptyString 0
              ("/mnt/" ++ String (lower_char drive)
                           (sep_join "/"%char segments)))
      with (replace_go "/mnt/" EmptyString 0
              (String (lower_char drive) (sep_join "/"%char segments))).
    rewrite replace_absent by exact C.
    unfold split.
    change (String (lower_char drive) (sep_join "/"%char segments))
      with (String (lower_char drive) EmptyString
              ++ sep_join "/"%char segments).
    rewrite split_sep_join
      by (trivial; cbn [free_of]; now rewrite S).
    cbn [list_first list_set_first bind rev rev_onto append upper map_chars].
    rewrite UL. unfold join, bs. rewrite concat_sep_join. reflexivity.
Qed.

Example round_trip_users :
  windows_path "C" ["Users"; "x"] = "C:" ++ bs ++ "Users" ++ bs ++ "x" /\
  win_to_linux (windows_path "C" ["Users"; "x"]) = Ok "/mnt/c/Users/x" /\
  linux_to_win "/mnt/c/Users/x" = Ok (windows_path "C" ["Users"; "x"]).
Proof.
  split; [reflexivity|].
  apply (round_trip_plain "C" ["Users"; "x"]); try reflexivity.
  repeat constructor.
Qed.

(** C6. The round trip [linux_to_win (win_to_linux p)] returns [p] for
    the path [C:\Users\x] of the specification, but not for every
    Windows-style path made of a drive letter and backslash-separated
    segments: [linux_to_win] removes every [/mnt/] of its argument, not
    only the leading one, so for [C:\mnt\x] the segment [mnt] is lost
    together with its separators. *)
Theorem round_trip_loses_mnt_segment :
  let p := windows_path "C" ["mnt"; "x"] in
  p = "C:" ++ bs ++ "mnt" ++ bs ++ "x" /\
  isupper_char "C" = true /\
  Forall (fun seg => plain seg = true) ["mnt"; "x"] /\
  is_win p = Ok true /\
  win_to_linux p = Ok "/mnt/c/mnt/x" /\
  linux_to_win "/mnt/c/mnt/x" = Ok "CX:" /\
  (q <- win_to_linux p ;; linux_to_win q) <> Ok p.
Proof.
  cbv zeta. repeat split; try reflexivity.
  - repeat constructor.
  - vm_compute. discriminate.
Qed.

(** ** Instrument lookups *)

Lemma is_equity_returns (i : instrument) : exists b, is_equity i = Ok b.
Proof.
  unfold is_equity. destruct (list_last_split "-" (symbol i)) as (y & ->).
  cbn. eauto.
Qed.

Lemma token_lookup_no_equity (ticker exchange : string) (l : list instrument) :
  Forall (fun i => is_equity i = Ok false) l ->
  token_lookup ticker l exchange = Ok None.
Proof.
  induction 1 as [|i l E _ IH]; [reflexivity|].
  cbn [token_lookup]. rewrite E.
  destruct (String.eqb (name i) ticker), (String.eqb (exch_seg i) exchange);
    cbn; exact IH.
Qed.

Lemma symbol_lookup_no_equity (tok exchange : string) (l : list instrument) :
  Forall (fun i => is_equity i = Ok false) l ->
  symbol_lookup tok l exchange = Ok None.
Proof.
  induction 1 as [|i l E _ IH]; [reflexivity|].
  cbn [symbol_lookup]. rewrite E.
  destruct (String.eqb (token i) tok), (String.eqb (exch_seg i) exchange);
    cbn; exact IH.
Qed.

(** C7. For the equity instrument (FOO, FOO-EQ, NSE, 123) alone in the
    list, [token_lookup] of FOO returns 123 and [symbol_lookup] of 123
    returns FOO; on a list of one instrument each lookup undoes the
    other; and when the text after the last [-] of the symbol of every
    instrument of the list is not EQ (as for FOO-FUT), both lookups
    return no value. *)
Theorem lookups_mutual_inverses :
  let inst := mkInstrument "FOO" "FOO-EQ" "NSE" "123" in
  let fut := mkInstrument "FOO" "FOO-FUT" "NSE" "123" in
  token_lookup "FOO" [inst] NSE = Ok (Some "123") /\
  symbol_lookup "123" [inst] NSE = Ok (Some "FOO") /\
  (forall i ticker tok exchange,
     token_lookup ticker [i] exchange = Ok (Some tok) ->
     symbol_lookup tok [i] exchange = Ok (Some ticker)) /\
  (forall i ticker tok exchange,
     symbol_lookup tok [i] exchange = Ok (Some ticker) ->
     token_lookup ticker [i] exchange = Ok (Some tok)) /\
  (forall l ticker tok exchange,
     Forall (fun i => is_equity i = Ok false) l ->
     token_lookup ticker l exchange = Ok None /\
     symbol_lookup tok l exchange = Ok None) /\
  is_equity fut = Ok false /\
  token_lookup "FOO" [fut] NSE = Ok None /\
  symbol_lookup "123" [fut] NSE = Ok None.
Proof.
  cbv zeta. repeat split; try reflexivity.
  - intros i ticker tok exchange. cbn.
    destruct (String.eqb_spec (name i) ticker) as [N|]; [|cbn; discriminate].
    destruct (String.eqb_spec (exch_seg i) exchange) as [X|]; [|cbn; discriminate].
    destruct (is_equity i) as [[|]|e]; cbn; try discriminate.
    intros H; injection H as <-. rewrite String.eqb_refl. cbn. now subst.
  - intros i ticker tok exchange. cbn.
    destruct (String.eqb_spec (token i) tok) as [N|]; [|cbn; discriminate].
    destruct (String.eqb_spec (exch_seg i) exchange) as [X|]; [|cbn; discriminate].
    destruct (is_equity i) as [[|]|e]; cbn; try discriminate.
    intros H; injection H as <-. rewrite String.eqb_refl. cbn. now subst.
  - now apply token_lookup_no_equity.
  - now apply symbol_lookup_no_equity.
Qed.

Lemma lookups_mutual_inverses_witness :
  token_lookup "BAR" [mkInstrument "BAR" "BAR-EQ" "BSE" "77"] "BSE"
    = Ok (Some "77") /\
  symbol_lookup "77" [mkInstrument "BAR" "BAR-EQ" "BSE" "77"] "BSE"
    = Ok (Some "BAR").
Proof.
  split; [reflexivity|].
  apply (proj1 (proj2 (proj2 lookups_mutual_inverses))). reflexivity.
Defined.

(** ** Paged retrieval of candles *)

Section Paging.

Variables (obj : Broker) (ticker interval : string).
Variables (instrument_list : list instrument) (exch : string).

Local Open Scope Z_scope.

Lemma paging_exit (fuel : nat) (end_date : Z) (s : loop_state) :
  end_date <= temp_end_date s ->
  paging fuel obj ticker interval instrument_list exch end_date s
  = Some (Ok s).
Proof.
  intros H. destruct fuel; cbn [paging];
    destruct (Z.ltb_spec (temp_end_date s) end_date); (lia || reflexivity).
Qed.

Lemma paging_step (fuel : nat) (end_date : Z) (s : loop_state) :
  temp_end_date s < end_date ->
  paging (S fuel) obj ticker interval instrument_list exch end_date s
  = let slept := (calls s ++ [Sleep 400])%list in
    match token_lookup ticker instrument_list NSE with
    | Raise e => Some (Raise e)
    | Ok tok =>
        let p := mkParams exch tok interval (temp_st_date s) (temp_end_date s) in
        match getCandleData obj slept p with
        | Raise e => Some (Raise e)
        | Ok temp =>
            paging fuel obj ticker interval instrument_list exch end_date
              (mkState (temp_end_date s + days 1)
                       (Z.min end_date (temp_end_date s + days 1 + days 30))
                       (df_data s ++ temp)%list
                       (slept ++ [GetCandleData p])%list)
        end
    end.
Proof.
  intros H. cbn [paging].
  destruct (Z.ltb_spec (temp_end_date s) end_date); [|lia]. cbv zeta.
  destruct (token_lookup ticker instrument_list NSE); [|reflexivity].
  destruct (getCandleData obj _ _); [|reflexivity].
  f_equal. f_equal.
  destruct (Z.ltb_spec end_date (temp_end_date s + days 1 + days 30)); lia.
Qed.

(** The loop ends: with [fuel] turns of 31 days to cover the distance to
    [end_date], it returns. *)
Lemma paging_terminates (fuel : nat) (end_date : Z) :
  forall s, end_date - temp_end_date s <= Z.of_nat fuel * days 31 ->
  exists r, paging fuel obj ticker interval instrument_list exch end_date s
            = Some r.
Proof.
  induction fuel as [|fuel IH]; intros s H.
  - rewrite paging_exit by (cbn in H; lia). eauto.
  - destruct (Z.lt_ge_cases (temp_end_date s) end_date) as [L|G].
    + rewrite paging_step by exact L. cbv zeta.
      destruct (token_lookup ticker instrument_list NSE); [|eauto].
      destruct (getCandleData obj _ _); [|eauto].
      apply IH. cbn [temp_end_date]. unfold days in *. lia.
    + rewrite paging_exit by lia. eauto.
Qed.

Lemma paging_fuel_enough (temp_end end_date : Z) :
  end_date - temp_end <= Z.of_nat (paging_fuel temp_end end_date) * days 31.
Proof.
  unfold paging_fuel, days.
  destruct (Z.le_gt_cases (end_date - temp_end) 0) as [L|G]; [lia|].
  rewrite Nat2Z.inj_succ, Z2Nat.id by (apply Z.div_pos; lia).
  pose proof (Z.mul_succ_div_gt (end_date - temp_end) (31 * 1440)). lia.
Qed.

(** [hist_data_extended] returns: a table, or the exception of a call. *)
Lemma hist_data_extended_returns (duration : Z) :
  exists r,
    hist_data_extended obj ticker duration interval instrument_list exch
    = Some r.
Proof.
  unfold hist_data_extended. cbv zeta.
  match goal with
  | |- context [paging ?f _ _ _ _ _ ?e ?s] =>
      destruct (paging_terminates f e s) as (r & ->)
  end.
  - apply paging_fuel_enough.
  - destruct r; eauto.
Qed.

(** No request carries the overall end date: every window the loop
    requests ends before [end_date], so the window whose end was cut to
    [end_date] is never requested. *)
Lemma paging_requests_before_end (fuel : nat) (end_date : Z) :
  forall s s',
    paging fuel obj ticker interval instrument_list exch end_date s
    = Some (Ok s') ->
    Forall (fun p => todate p < end_date) (requests (calls s)) ->
    Forall (fun p => todate p < end_date) (requests (calls s')).
Proof.
  induction fuel as [|fuel IH]; intros s s' E F.
  - cbn [paging] in E. destruct (temp_end_date s <? end_date); [discriminate|].
    now injection E as <-.
  - destruct (Z.lt_ge_cases (temp_end_date s) end_date) as [L|G].
    + rewrite paging_step in E by exact L. cbv zeta in E.
      destruct (token_lookup ticker instrument_list NSE); [|discriminate].
      destruct (getCandleData obj _ _); [|discriminate].
      apply IH in E; [exact E|]. cbn [calls]. unfold requests in *.
      rewrite !flat_map_app. cbn. rewrite app_nil_r.
      apply Forall_app. split; [exact F|]. constructor; [exact L|constructor].
    + rewrite paging_exit in E by lia. now injection E as <-.
Qed.

End Paging.

Lemma drop_duplicates_from_naive (seen : list ohlcv) (df : list indexed_row) :
  Forall (fun r => utc_offset (idx r) = None) df ->
  Forall (fun r => utc_offset (idx r) = None) (drop_duplicates_from seen df).
Proof.
  intros F. revert seen. induction F as [|r df N _ IH]; intros seen; cbn.
  - constructor.
  - destruct (existsb _ seen); [apply IH|]. constructor; [exact N|apply IH].
Qed.

(** The index of the table returned is timezone-naive. *)
Lemma hist_data_extended_naive (obj : Broker) (ticker interval : string)
  (instrument_list : list instrument) (exch : string) (duration : Z)
  (df : list indexed_row) (evs : list api_event) :
  hist_data_extended obj ticker duration interval instrument_list exch
  = Some (Ok (df, evs)) ->
  Forall (fun r => utc_offset (idx r) = None) df.
Proof.
  unfold hist_data_extended. cbv zeta.
  destruct (paging _ _ _ _ _ _ _ _) as [[s|e]|]; try discriminate.
  intros H; injection H as <- _. apply drop_duplicates_from_naive.
  unfold tz_localize_none. apply Forall_map, Forall_forall. reflexivity.
Qed.

(** C1. The requests of [hist_data_extended].  With [duration] up to 31
    days (a range under 30 days) the loop is not entered: no request is
    made and the table is empty.  With [duration] from 63 to 93 days (a
    range of 65 days among them) two requests are made, the second
    window starting 31 days after the first; the third window, cut to the
    overall end date, is computed and never requested.  Whatever the
    duration, no request ends on the overall end date. *)
Theorem hist_data_extended_requests (obj : Broker) (ticker interval : string)
  (instrument_list : list instrument) (exch : string) :
  (forall duration, (duration <= 31)%Z ->
     hist_data_extended obj ticker duration interval instrument_list exch
     = Some (Ok ([], []))) /\
  (forall duration df evs, (63 <= duration <= 93)%Z ->
     hist_data_extended obj ticker duration interval instrument_list exch
     = Some (Ok (df, evs)) ->
     let st_date := (days (today obj - duration) + 210)%Z in
     exists tok,
       requests evs
       = [mkParams exch tok interval st_date (st_date + days 30)%Z;
          mkParams exch tok interval (st_date + days 31)%Z
                   (st_date + days 61)%Z]) /\
  (forall duration df evs,
     hist_data_extended obj ticker duration interval instrument_list exch
     = Some (Ok (df, evs)) ->
     Forall (fun p => (todate p < days (today obj - 1))%Z) (requests evs)).
Proof.
  repeat split.
  - intros duration D. unfold hist_data_extended. cbv zeta.
    rewrite paging_exit; [reflexivity|]. cbn [temp_end_date]. unfold days. lia.
  - intros duration df evs D. unfold hist_data_extended. cbv zeta.
    assert (F : paging_fuel (days (today obj - duration) + 3 * 60 + 30 + days 30)
                            (days (today obj - 1)) = 2%nat).
    { unfold paging_fuel. do 2 f_equal. change 1%nat with (Z.to_nat 1).
      f_equal. unfold days. symmetry.
      apply Z.div_unique with
        (r := ((today obj - 1) * 1440
               - ((today obj - duration) * 1440 + 3 * 60 + 30 + 30 * 1440)
               - 31 * 1440)%Z); lia. }
    rewrite F. clear F.
    rewrite paging_step by (cbn [temp_end_date]; unfold days; lia).
    cbv zeta. cbn [temp_st_date temp_end_date df_data calls].
    destruct (token_lookup ticker instrument_list NSE) as [tok|] eqn:TL;
      [|discriminate].
    destruct (getCandleData obj _ _) as [t1|]; [|discriminate].
    rewrite paging_step by (cbn [temp_end_date]; unfold days; lia).
    cbv zeta. cbn [temp_st_date temp_end_date df_data calls]. rewrite TL.
    destruct (getCandleData obj _ _) as [t2|]; [|discriminate].
    rewrite paging_exit by (cbn [temp_end_date]; unfold days; lia).
    intros H; injection H as _ <-. exists tok. cbn [calls].
    unfold requests. cbn [app flat_map].
    repeat (f_equal; try (unfold days; lia)).
  - intros duration df evs. unfold hist_data_extended. cbv zeta.
    destruct (paging _ _ _ _ _ _ _ _) as [[s|e]|] eqn:E; try discriminate.
    intros H; injection H as _ <-.
    apply (paging_requests_before_end _ _ _ _ _ _ _ _ _ E). constructor.
Qed.

Lemma hist_data_extended_requests_witness :
  (20 <= 31)%Z /\
  hist_data_extended quiet_broker "FOO" 20 "ONE_DAY" [] NSE = Some (Ok ([], [])).
Proof.
  split; [lia|].
  apply (proj1 (hist_data_extended_requests quiet_broker "FOO" "ONE_DAY" [] NSE)).
  lia.
Defined.

Example hist_data_extended_65 :
  option_map (fun r => match r with
                       | Ok (_, evs) => requests evs
                       | Raise _ => []
                       end)
    (hist_data_extended quiet_broker "FOO" 65 "ONE_DAY" [] NSE)
  = Some [mkParams NSE None "ONE_DAY" 27266610 27309810;
          mkParams NSE None "ONE_DAY" 27311250 27354450] /\
  days (today quiet_broker - 1) = 27358560%Z.
Proof. split; vm_compute; reflexivity. Qed.

(** C2. [drop_duplicates] compares the values of the columns and leaves
    the index out.  Two rows of adjacent windows with the same timestamp
    and different values are both kept, and of two rows with the same
    values at different timestamps the second is dropped, although its
    timestamp occurs once. *)
Theorem drop_duplicates_ignores_timestamp :
  option_map (fun r => match r with Ok (df, _) => df | Raise _ => [] end)
    (hist_data_extended same_time_broker "FOO" 65 "ONE_DAY" [] NSE)
  = Some [mkRow (mkTimestamp 27270000 None) bar_a;
          mkRow (mkTimestamp 27270000 None) bar_b] /\
  option_map (fun r => match r with Ok (df, _) => df | Raise _ => [] end)
    (hist_data_extended flat_price_broker "FOO" 65 "ONE_DAY" [] NSE)
  = Some [mkRow (mkTimestamp 27270000 None) bar_a] /\
  drop_duplicates
    [mkRow (mkTimestamp 1 None) bar_a; mkRow (mkTimestamp 1 None) bar_b;
     mkRow (mkTimestamp 2 None) bar_a]
  = [mkRow (mkTimestamp 1 None) bar_a; mkRow (mkTimestamp 1 None) bar_b].
Proof. repeat split; vm_compute; reflexivity. Qed.

(** ** [write] *)

Lemma list_last_skip {A : Type} (x y : A) (l : list A) :
  list_last (x :: y :: l) = list_last (y :: l).
Proof. reflexivity. Qed.

Lemma last_split_feather (stem : string) :
  forall cur,
    list_last (split_go "." 0 cur (stem ++ ".feather")) = Ok "feather".
Proof.
  induction stem as [|c stem IH]; intros cur.
  - reflexivity.
  - change (String c stem ++ ".feather") with (String c (stem ++ ".feather")).
    cbn [split_go].
    destruct (String.prefix "." (String c (stem ++ ".feather"))).
    + destruct (split_go_nonempty "." (stem ++ ".feather") 0 EmptyString)
        as (x & t & E).
      specialize (IH EmptyString). cbn [String.length Nat.sub].
      rewrite E in *. rewrite list_last_skip. exact IH.
    + apply IH.
Qed.

(** C4. When the extension of the (adjusted) path is none of xlsx, xls,
    csv, parquet, yml, yaml, pkl, pickle, ubj, joblib, [write] makes one
    call, the [os.makedirs] of the parent directory, and raises
    [NotImplementedError] once that call has returned: no format-specific
    write is attempted.  In particular a path ending in [.feather] has
    the extension feather, which is not supported, although [write] has a
    branch for it. *)
Theorem write_unsupported_extension (fuel : nat) (w : World) (data : value)
  (filepath : string) (kw : kwargs) (h : list event) :
  (forall fp ext,
     adj_path (system w) filepath = Ok fp ->
     list_last (split "." fp) = Ok ext ->
     str_in ext write_supported = false ->
     write (S fuel) w data filepath kw h
     = ((h ++ [makedirs_call w fp])%list,
        Ret (match respond w h (makedirs_call w fp) with
             | Ok _ => Raise NotImplementedError
             | Raise e => Raise e
             end))) /\
  (forall stem,
     adj_path (system w) filepath = Ok (stem ++ ".feather") ->
     list_last (split "." (stem ++ ".feather")) = Ok "feather" /\
     str_in "feather" write_supported = false /\
     write (S fuel) w data filepath kw h
     = ((h ++ [makedirs_call w (stem ++ ".feather")])%list,
        Ret (match respond w h (makedirs_call w (stem ++ ".feather")) with
             | Ok _ => Raise NotImplementedError
             | Raise e => Raise e
             end))).
Proof.
  assert (G : forall fp ext,
     adj_path (system w) filepath = Ok fp ->
     list_last (split "." fp) = Ok ext ->
     str_in ext write_supported = false ->
     write (S fuel) w data filepath kw h
     = ((h ++ [makedirs_call w fp])%list,
        Ret (match respond w h (makedirs_call w fp) with
             | Ok _ => Raise NotImplementedError
             | Raise e => Raise e
             end))).
  { intros fp ext A E U. cbn [write]. rewrite A.
    unfold bindM at 1. unfold lift at 1. unfold bindM at 1. unfold call at 1.
    fold (makedirs_call w fp).
    destruct (respond w h (makedirs_call w fp)); [|reflexivity].
    unfold bindM at 1. unfold lift at 1. rewrite E, U. reflexivity. }
  split; [exact G|].
  intros stem A.
  pose proof (last_split_feather stem EmptyString) as L.
  split; [exact L|]. split; [reflexivity|].
  apply (G _ "feather" A L). reflexivity.
Qed.

Lemma write_unsupported_extension_witness :
  adj_path (system plain_world) "out/data.feather" = Ok "out/data.feather" /\
  list_last (split "." "out/data.feather") = Ok "feather" /\
  str_in "feather" write_supported = false /\
  write 1 plain_world (VFrame mixed) "out/data.feather" [] []
  = ([makedirs_call plain_world "out/data.feather"],
     Ret (Raise NotImplementedError)).
Proof.
  split; [reflexivity|]. split; [reflexivity|]. split; [reflexivity|].
  apply (proj1 (write_unsupported_extension 0 plain_world (VFrame mixed)
                  "out/data.feather" [] []) "out/data.feather" "feather");
    reflexivity.
Defined.

Section ParquetWrite.

Variables (w : World) (so : value) (filepath : string) (kw : kwargs).
Hypothesis adjusted : adj_path (system w) filepath = Ok filepath.
Hypothesis extension : list_last (split "." filepath) = Ok "parquet".
Hypothesis configured : storage_options w = Some so.

(** One call of [write] on a parquet path: the directory, the write and,
    when the write fails, the coercion of the column the message names
    and a new call of [write], under the same handler. *)
Lemma write_parquet_step (fuel : nat) (df : DataFrame) (h : list event) :
  write (S fuel) w (VFrame df) filepath kw h
  = match respond w h (makedirs_call w filepath) with
    | Raise e => ((h ++ [makedirs_call w filepath])%list, Ret (Raise e))
    | Ok _ =>
        let h2 := (h ++ [makedirs_call w filepath;
                         to_parquet_call so filepath kw df])%list in
        match respond w (h ++ [makedirs_call w filepath])
                      (to_parquet_call so filepath kw df) with
        | Ok _ => (h2, Ret (Ok (VFrame df)))
        | Raise e =>
            match named_column e with
            | Raise x => (h2, Ret (Raise x))
            | Ok c =>
                match getitem c df with
                | Raise x => (h2, Ret (Raise x))
                | Ok col =>
                    write fuel w (VFrame (setitem c (astype_str col) df))
                          filepath kw h2
                end
            end
        end
    end.
Proof.
  cbn [write]. rewrite adjusted.
  unfold bindM at 1. unfold lift at 1. unfold bindM at 1. unfold call at 1.
  fold (makedirs_call w filepath).
  destruct (respond w h (makedirs_call w filepath)); [|reflexivity].
  unfold bindM at 1. unfold lift at 1. rewrite extension.
  cbn [str_in existsb String.eqb Ascii.eqb Bool.eqb negb orb andb write_supported].
  unfold try_catch, bindM, with_storage, get_storage_options, assert_frame,
    ret, call, lift.
  rewrite configured.
  cbv beta iota zeta delta [bindM ret lift call try_catch].
  fold (to_parquet_call so filepath kw df).
  rewrite <- !app_assoc. cbn [app].
  destruct (respond w (h ++ [makedirs_call w filepath])
                    (to_parquet_call so filepath kw df)); [reflexivity|].
  cbn [is_Exception].
  destruct (named_column e); [|reflexivity].
  destruct (getitem a0 df); reflexivity.
Qed.

Lemma parquet_attempts_app (h1 h2 : list event) :
  parquet_attempts (h1 ++ h2)%list
  = (parquet_attempts h1 ++ parquet_attempts h2)%list.
Proof.
  induction h1 as [|ev h1 IH]; [reflexivity|].
  cbn [app parquet_attempts].
  destruct ev as [fn [|[] args] kw'| |]; try exact IH.
  destruct (String.eqb fn "DataFrame.to_parquet"); [|exact IH].
  cbn [app]. now rewrite IH.
Qed.

(** C3, as the code has it.  A parquet write that fails with a message
    naming a column of the table has that column coerced to text and
    [write] called again on the coerced table; the new call handles a
    failure in the same way.  So when the world rejects [n] writes in a
    row, then accepts one, [write] returns normally after [n] cycles of
    coercion and retry and [n + 1] calls of [to_parquet], for every [n]:
    the cycles are not limited to one. *)
Theorem parquet_write_retries (n : nat) (h h' : list event)
  (df df' : DataFrame) :
  retries w so filepath kw h df n h' df' ->
  forall fuel, (n < fuel)%nat ->
    write fuel w (VFrame df) filepath kw h = (h', Ret (Ok (VFrame df'))) /\
    List.length (parquet_attempts h')
    = (List.length (parquet_attempts h) + S n)%nat.
Proof.
  induction 1 as [h df a b M P | h df a e c col n h' df' M P N G R IH];
    intros fuel F; (destruct fuel as [|fuel]; [lia|]).
  - rewrite write_parquet_step, M, P. cbv zeta. split; [reflexivity|].
    rewrite parquet_attempts_app, length_app. cbn. lia.
  - rewrite write_parquet_step, M, P, N, G. cbv zeta.
    destruct (IH fuel ltac:(lia)) as (W & L). split; [exact W|].
    rewrite L, parquet_attempts_app, length_app. cbn. lia.
Qed.

End ParquetWrite.

Lemma picky_world_retries :
  retries picky_world VNone "out.parquet" [] [] mixed 2
    [makedirs_call picky_world "out.parquet";
     to_parquet_call VNone "out.parquet" [] mixed;
     makedirs_call picky_world "out.parquet";
     to_parquet_call VNone "out.parquet" [] mixed_a;
     makedirs_call picky_world "out.parquet";
     to_parquet_call VNone "out.parquet" [] mixed_ab]
    mixed_ab.
Proof.
  eapply retries_rejected with (c := "a"); try reflexivity.
  eapply retries_rejected with (c := "b"); try reflexivity.
  eapply retries_accepted; reflexivity.
Defined.

Lemma parquet_write_retries_witness :
  write 3 picky_world (VFrame mixed) "out.parquet" [] []
  = ([makedirs_call picky_world "out.parquet";
      to_parquet_call VNone "out.parquet" [] mixed;
      makedirs_call picky_world "out.parquet";
      to_parquet_call VNone "out.parquet" [] mixed_a;
      makedirs_call picky_world "out.parquet";
      to_parquet_call VNone "out.parquet" [] mixed_ab],
     Ret (Ok (VFrame mixed_ab))).
Proof.
  refine (proj1 (parquet_write_retries picky_world VNone "out.parquet" []
                   _ _ _ 2 [] _ mixed mixed_ab picky_world_retries 3 _)).
  - reflexivity.
  - reflexivity.
  - reflexivity.
  - lia.
Defined.

(** C3, as the specification has it, fails: in [picky_world] the retry
    that follows the first coercion fails too, and its error does not
    propagate: a second cycle coerces another column, the third
    [to_parquet] succeeds and [write] returns normally. *)
Lemma parquet_retry_not_once :
  let r := write 3 picky_world (VFrame mixed) "out.parquet" [] [] in
  parquet_attempts (fst r) = [mixed; mixed_a; mixed_ab] /\
  respond picky_world [] (to_parquet_call VNone "out.parquet" [] mixed)
  = Raise (OtherException "Conversion failed for column a with type object") /\
  respond picky_world [] (to_parquet_call VNone "out.parquet" [] mixed_a)
  = Raise (OtherException "Conversion failed for column b with type object") /\
  snd r = Ret (Ok (VFrame mixed_ab)).
Proof. cbv zeta. repeat split; vm_compute; reflexivity. Qed.

(** ** [read] *)

Lemma for_each_glob_empty (w : World) (pat : string -> string)
  (exts : list string) :
  forall (acc : list string) (h : list event),
    (forall h' file, In file exts -> glob w h' (pat file) = []) ->
    for_each exts
      (fun file files =>
         found <~ call_glob w (pat file) ;; ret (files ++ found)%list) acc h
    = ((h ++ map (fun file => Glob (pat file)) exts)%list, Ret (Ok acc)).
Proof.
  induction exts as [|x exts IH]; intros acc h G.
  - cbn. now rewrite app_nil_r.
  - cbn [for_each map]. unfold bindM at 1. unfold bindM at 1.
    unfold call_glob at 1. rewrite (G h x) by (left; reflexivity).
    unfold ret at 1. rewrite app_nil_r.
    rewrite IH by (intros; apply G; right; assumption).
    now rewrite <- app_assoc.
Qed.

(** C5. With no [concat] argument and a path without extension, [read]
    hands the path to the parquet reader, which reads a directory as the
    concatenation of its parquet files, and post-processes the table.
    With a [concat] argument other than the text parquet, [read] looks
    for the files of the directory by extension, and when [glob] finds
    none for any of the extensions it returns the empty table: it makes
    no other call and raises nothing. *)
Theorem read_directory_modes (fuel : nat) (w : World) (filepath : string)
  (kw : kwargs) (h : list event) :
  (forall fp,
     adj_path (system w) filepath = Ok fp ->
     read_ext w fp = EmptyString ->
     read (S fuel) w filepath None kw h
     = (kw' <~ with_storage w kw ;;
        df <~ call w "pd.read_parquet" [VStr fp] kw' ;;
        read_preprocess w df) h) /\
  (forall fp c,
     adj_path (system w) filepath = Ok fp ->
     is_parquet c = false ->
     (forall h' pattern,
        In pattern (concat_patterns fp c) -> glob w h' pattern = []) ->
     read (S fuel) w filepath (Some c) kw h
     = ((h ++ map Glob (concat_patterns fp c))%list,
        Ret (Ok (VFrame empty_frame)))).
Proof.
  split.
  - intros fp A E. cbn [read]. rewrite A.
    unfold bindM at 1. unfold lift at 1. rewrite E. reflexivity.
  - intros fp c A P G. cbn [read]. rewrite A.
    unfold bindM at 1. unfold lift at 1. rewrite P. cbn [negb].
    unfold bindM at 1.
    rewrite (for_each_glob_empty w (fun file => (fp ++ "/") ++ "/*" ++ file)).
    + unfold concat_patterns. rewrite map_map. reflexivity.
    + intros h' file I. apply G. unfold concat_patterns.
      apply in_map_iff. eauto.
Qed.

Lemma read_directory_modes_witness :
  (adj_path (system plain_world) "data/candles" = Ok "data/candles" /\
   read_ext plain_world "data/candles" = EmptyString /\
   read 1 plain_world "data/candles" None [] []
   = (kw' <~ with_storage plain_world [] ;;
      df <~ call plain_world "pd.read_parquet" [VStr "data/candles"] kw' ;;
      read_preprocess plain_world df) []) /\
  (is_parquet (ConcatList ["csv"; "parquet"]) = false /\
   read 1 plain_world "data/candles" (Some (ConcatList ["csv"; "parquet"]))
        [] []
   = ([Glob "data/candles//*csv"; Glob "data/candles//*parquet"],
      Ret (Ok (VFrame empty_frame)))).
Proof.
  split.
  - split; [reflexivity|]. split; [reflexivity|].
    apply (proj1 (read_directory_modes 0 plain_world "data/candles" [] [])
                 "data/candles"); reflexivity.
  - split; [reflexivity|].
    apply (proj2 (read_directory_modes 0 plain_world "data/candles" [] [])
                 "data/candles" (ConcatList ["csv"; "parquet"]));
      reflexivity.
Defined.

(** C10, as the code has it.  With no [concat] argument, no [conn] and
    no [model] keyword, a path whose extension is not empty and is none
    of the formats [read] knows makes [read] return [None]: it makes no
    call and raises nothing. *)
Theorem read_unrecognized_extension (fuel : nat) (w : World)
  (filepath : string) (kw : kwargs) (h : list event) (fp : string) :
  adj_path (system w) filepath = Ok fp ->
  read_ext w fp <> EmptyString ->
  str_in (read_ext w fp) read_recognized = false ->
  has_key "conn" kw = false ->
  has_key "model" kw = false ->
  read (S fuel) w filepath None kw h = (h, Ret (Ok VNone)).
Proof.
  intros A N U C M. cbn [read]. rewrite A.
  unfold bindM at 1. unfold lift at 1.
  destruct (String.eqb_spec (read_ext w fp) EmptyString) as [E|_];
    [contradiction|].
  rewrite C, M.
  unfold str_in, read_recognized in U. cbn [existsb] in U.
  repeat (apply orb_false_elim in U; destruct U as [? U]).
  unfold str_in. cbn [existsb].
  repeat match goal with
         | H : String.eqb _ _ = false |- _ => rewrite H; clear H
         end.
  reflexivity.
Qed.

Lemma read_unrecognized_extension_witness :
  read_ext plain_world "model.ubj" = "ubj" /\
  read 1 plain_world "model.ubj" None [("index_col", VInt 0)] []
  = ([], Ret (Ok VNone)).
Proof.
  split; [reflexivity|].
  apply (read_unrecognized_extension 0 plain_world "model.ubj"
           [("index_col", VInt 0)] [] "model.ubj");
    (reflexivity || discriminate).
Defined.

(** C10, as the specification has it, fails: the extension xyz is not
    empty and not recognized and neither [conn] nor [model] is given,
    yet with a [concat] argument [read] returns a table, not [None]. *)
Lemma read_unrecognized_with_concat :
  read_ext plain_world "data.xyz" = "xyz" /\
  str_in "xyz" read_recognized = false /\
  read 1 plain_world "data.xyz" (Some (ConcatStr "csv")) [] []
  = ([Glob "data.xyz//*csv"], Ret (Ok (VFrame empty_frame))) /\
  VFrame empty_frame <> VNone.
Proof. repeat split; try reflexivity. discriminate. Qed.

(** * Further properties *)

(** ** Instrument lookups on any list *)

Lemma is_equity_equityb (i : instrument) : is_equity i = Ok (equityb i).
Proof.
  unfold equityb. destruct (is_equity_returns i) as (b & ->). reflexivity.
Qed.

Lemma token_lookup_step (ticker exchange : string) (i : instrument)
  (l : list instrument) :
  token_lookup ticker (i :: l) exchange
  = if name_hit ticker exchange i then Ok (Some (token i))
    else token_lookup ticker l exchange.
Proof.
  cbn [token_lookup]. unfold name_hit. rewrite is_equity_equityb.
  destruct (String.eqb (name i) ticker), (String.eqb (exch_seg i) exchange),
    (equityb i); reflexivity.
Qed.

Lemma symbol_lookup_step (tok exchange : string) (i : instrument)
  (l : list instrument) :
  symbol_lookup tok (i :: l) exchange
  = if token_hit tok exchange i then Ok (Some (name i))
    else symbol_lookup tok l exchange.
Proof.
  cbn [symbol_lookup]. unfold token_hit. rewrite is_equity_equityb.
  destruct (String.eqb (token i) tok), (String.eqb (exch_seg i) exchange),
    (equityb i); reflexivity.
Qed.

Lemma all_equities_eq (l : list instrument) :
  all_equities l = Ok (filter equityb l).
Proof.
  induction l as [|i l IH]; [reflexivity|].
  cbn [all_equities filter]. rewrite is_equity_equityb, IH. cbn [bind].
  reflexivity.
Qed.

(** X1. [all_equities] never raises and returns the instruments whose
    symbol ends in EQ after its last [-], each as often as the list
    holds it and in the original order: it is the filter of the list. *)
Theorem all_equities_filter (l : list instrument) :
  exists eq_list,
    all_equities l = Ok eq_list /\
    eq_list = filter equityb l /\
    (forall i, In i eq_list <-> In i l /\ is_equity i = Ok true).
Proof.
  exists (filter equityb l). split; [apply all_equities_eq|].
  split; [reflexivity|]. intros i. rewrite filter_In, is_equity_equityb.
  split; intros (I & E); split; trivial; congruence.
Qed.

Lemma all_equities_filter_witness :
  In (mkInstrument "FOO" "FOO-EQ" "NSE" "123")
     [mkInstrument "BAR" "BAR-FUT" "NSE" "7";
      mkInstrument "FOO" "FOO-EQ" "NSE" "123"] /\
  all_equities [mkInstrument "BAR" "BAR-FUT" "NSE" "7";
                mkInstrument "FOO" "FOO-EQ" "NSE" "123"]
  = Ok [mkInstrument "FOO" "FOO-EQ" "NSE" "123"].
Proof.
  split; [right; left; reflexivity|].
  destruct (all_equities_filter
              [mkInstrument "BAR" "BAR-FUT" "NSE" "7";
               mkInstrument "FOO" "FOO-EQ" "NSE" "123"])
    as (eq_list & E & F & _).
  rewrite E, F. reflexivity.
Defined.

(** X2. A lookup in the list [all_equities] returns is the lookup in the
    whole list: filtering the equities first changes no answer of
    [token_lookup] or [symbol_lookup]. *)
Theorem lookup_after_all_equities (l : list instrument)
  (key exchange : string) :
  (eq_list <- all_equities l ;; token_lookup key eq_list exchange)
  = token_lookup key l exchange /\
  (eq_list <- all_equities l ;; symbol_lookup key eq_list exchange)
  = symbol_lookup key l exchange.
Proof.
  rewrite all_equities_eq. cbn [bind].
  split; induction l as [|i l IH]; try reflexivity; cbn [filter].
  - rewrite (token_lookup_step key exchange i l). unfold name_hit.
    destruct (equityb i) eqn:E.
    + rewrite token_lookup_step. unfold name_hit. rewrite E, IH. reflexivity.
    + rewrite andb_false_r. exact IH.
  - rewrite (symbol_lookup_step key exchange i l). unfold token_hit.
    destruct (equityb i) eqn:E.
    + rewrite symbol_lookup_step. unfold token_hit. rewrite E, IH. reflexivity.
    + rewrite andb_false_r. exact IH.
Qed.

(** X3. [token_lookup] never raises.  It returns a token exactly when the
    list holds an equity of that name on that exchange, and the token is
    the one of the first such instrument; it returns no value exactly
    when the list holds none. *)
Theorem token_lookup_first_hit (ticker exchange : string)
  (l : list instrument) :
  (forall tok,
     token_lookup ticker l exchange = Ok (Some tok) <->
     exists before i after,
       l = (before ++ i :: after)%list /\
       forallb (fun j => negb (name_hit ticker exchange j)) before = true /\
       name_hit ticker exchange i = true /\ token i = tok) /\
  (token_lookup ticker l exchange = Ok None <->
   forallb (fun j => negb (name_hit ticker exchange j)) l = true) /\
  (exists r, token_lookup ticker l exchange = Ok r).
Proof.
  induction l as [|i l (IHs & IHn & IHt)].
  - split; [intros r; split|split; [split|]].
    + discriminate.
    + intros (before & i & after & E & _). now destruct before.
    + reflexivity.
    + reflexivity.
    + eexists. reflexivity.
  - split; [intros r; split|split; [split|]].
    + rewrite token_lookup_step. destruct (name_hit ticker exchange i) eqn:H.
      * intros E. injection E as <-. exists [], i, l. auto.
      * intros E. apply IHs in E.
        destruct E as (before & j & after & -> & B & J & T).
        exists (i :: before), j, after. cbn [forallb app]. rewrite H.
        auto.
    + intros (before & j & after & E & B & J & T).
      rewrite token_lookup_step. destruct before as [|b before].
      * cbn [app] in E. injection E as -> ->. now rewrite J, T.
      * cbn [app forallb] in *. injection E as -> ->.
        apply andb_prop in B. destruct B as [B1 B].
        apply negb_true_iff in B1. rewrite B1.
        apply IHs. eauto 8.
    + rewrite token_lookup_step. cbn [forallb].
      destruct (name_hit ticker exchange i); [discriminate|].
      apply IHn.
    + rewrite token_lookup_step. cbn [forallb].
      destruct (name_hit ticker exchange i); [discriminate|].
      apply IHn.
    + rewrite token_lookup_step.
      destruct (name_hit ticker exchange i); [eexists; reflexivity|exact IHt].
Qed.

(** X4. [symbol_lookup] never raises.  It returns a name exactly when the
    list holds an equity with that token on that exchange, and the name
    is the one of the first such instrument; it returns no value exactly
    when the list holds none. *)
Theorem symbol_lookup_first_hit (tok exchange : string)
  (l : list instrument) :
  (forall ticker,
     symbol_lookup tok l exchange = Ok (Some ticker) <->
     exists before i after,
       l = (before ++ i :: after)%list /\
       forallb (fun j => negb (token_hit tok exchange j)) before = true /\
       token_hit tok exchange i = true /\ name i = ticker) /\
  (symbol_lookup tok l exchange = Ok None <->
   forallb (fun j => negb (token_hit tok exchange j)) l = true) /\
  (exists r, symbol_lookup tok l exchange = Ok r).
Proof.
  induction l as [|i l (IHs & IHn & IHt)].
  - split; [intros r; split|split; [split|]].
    + discriminate.
    + intros (before & i & after & E & _). now destruct before.
    + reflexivity.
    + reflexivity.
    + eexists. reflexivity.
  - split; [intros r; split|split; [split|]].
    + rewrite symbol_lookup_step. destruct (token_hit tok exchange i) eqn:H.
      * intros E. injection E as <-. exists [], i, l. auto.
      * intros E. apply IHs in E.
        destruct E as (before & j & after & -> & B & J & T).
        exists (i :: before), j, after. cbn [forallb app]. rewrite H.
        auto.
    + intros (before & j & after & E & B & J & T).
      rewrite symbol_lookup_step. destruct before as [|b before].
      * cbn [app] in E. injection E as -> ->. now rewrite J, T.
      * cbn [app forallb] in *. injection E as -> ->.
        apply andb_prop in B. destruct B as [B1 B].
        apply negb_true_iff in B1. rewrite B1.
        apply IHs. eauto 8.
    + rewrite symbol_lookup_step. cbn [forallb].
      destruct (token_hit tok exchange i); [discriminate|].
      apply IHn.
    + rewrite symbol_lookup_step. cbn [forallb].
      destruct (token_hit tok exchange i); [discriminate|].
      apply IHn.
    + rewrite symbol_lookup_step.
      destruct (token_hit tok exchange i); [eexists; reflexivity|exact IHt].
Qed.

Lemma token_lookup_first_hit_witness :
  token_lookup "B" [mkInstrument "A" "A-EQ" "NSE" "1";
                    mkInstrument "B" "B-EQ" "NSE" "2"] "NSE"
  = Ok (Some "2").
Proof.
  apply (proj2 (proj1 (token_lookup_first_hit "B" "NSE"
                         [mkInstrument "A" "A-EQ" "NSE" "1";
                          mkInstrument "B" "B-EQ" "NSE" "2"]) "2")).
  exists [mkInstrument "A" "A-EQ" "NSE" "1"],
         (mkInstrument "B" "B-EQ" "NSE" "2"), [].
  repeat split; reflexivity.
Defined.

Lemma symbol_lookup_first_hit_witness :
  symbol_lookup "2" [mkInstrument "A" "A-EQ" "NSE" "1";
                     mkInstrument "B" "B-EQ" "NSE" "2"] "NSE"
  = Ok (Some "B").
Proof.
  apply (proj2 (proj1 (symbol_lookup_first_hit "2" "NSE"
                         [mkInstrument "A" "A-EQ" "NSE" "1";
                          mkInstrument "B" "B-EQ" "NSE" "2"]) "B")).
  exists [mkInstrument "A" "A-EQ" "NSE" "1"],
         (mkInstrument "B" "B-EQ" "NSE" "2"), [].
  repeat split; reflexivity.
Defined.

Lemma token_lookup_some (ticker exchange tok : string) (l : list instrument) :
  token_lookup ticker l exchange = Ok (Some tok) ->
  exists i, In i l /\ name_hit ticker exchange i = true /\ token i = tok.
Proof.
  induction l as [|i l IH]; [discriminate|].
  rewrite token_lookup_step. destruct (name_hit ticker exchange i) eqn:H.
  - intros E. injection E as <-. exists i. cbn. auto.
  - intros E. destruct (IH E) as (j & I & J). exists j. cbn. auto.
Qed.

Lemma symbol_lookup_some (tok exchange ticker : string) (l : list instrument) :
  symbol_lookup tok l exchange = Ok (Some ticker) ->
  exists i, In i l /\ token_hit tok exchange i = true /\ name i = ticker.
Proof.
  induction l as [|i l IH]; [discriminate|].
  rewrite symbol_lookup_step. destruct (token_hit tok exchange i) eqn:H.
  - intros E. injection E as <-. exists i. cbn. auto.
  - intros E. destruct (IH E) as (j & I & J). exists j. cbn. auto.
Qed.

Lemma token_lookup_hit (ticker exchange : string) (l : list instrument)
  (i : instrument) :
  In i l -> name_hit ticker exchange i = true ->
  exists tok, token_lookup ticker l exchange = Ok (Some tok).
Proof.
  induction l as [|j l IH]; [contradiction|].
  intros I H. rewrite token_lookup_step.
  destruct (name_hit ticker exchange j) eqn:J; [eauto|].
  destruct I as [->|I]; [congruence|]. now apply IH.
Qed.

Lemma symbol_lookup_hit (tok exchange : string) (l : list instrument)
  (i : instrument) :
  In i l -> token_hit tok exchange i = true ->
  exists ticker, symbol_lookup tok l exchange = Ok (Some ticker).
Proof.
  induction l as [|j l IH]; [contradiction|].
  intros I H. rewrite symbol_lookup_step.
  destruct (token_hit tok exchange j) eqn:J; [eauto|].
  destruct I as [->|I]; [congruence|]. now apply IH.
Qed.

Lemma name_hit_parts (ticker exchange : string) (i : instrument) :
  name_hit ticker exchange i = true ->
  name i = ticker /\ exch_seg i = exchange /\ equityb i = true.
Proof.
  unfold name_hit. intros H. apply andb_prop in H. destruct H as [H E].
  apply andb_prop in H. destruct H as [N X].
  apply String.eqb_eq in N, X. auto.
Qed.

Lemma token_hit_parts (tok exchange : string) (i : instrument) :
  token_hit tok exchange i = true ->
  token i = tok /\ exch_seg i = exchange /\ equityb i = true.
Proof.
  unfold token_hit. intros H. apply andb_prop in H. destruct H as [H E].
  apply andb_prop in H. destruct H as [N X].
  apply String.eqb_eq in N, X. auto.
Qed.

(** X5. On any list, [symbol_lookup] undoes [token_lookup] when two
    equities of the exchange with the same token have the same name, and
    [token_lookup] undoes [symbol_lookup] when two equities of the
    exchange with the same name have the same token. *)
Theorem lookups_round_trip (l : list instrument) (exchange : string) :
  ((forall i j, In i l -> In j l ->
      equityb i = true -> equityb j = true ->
      exch_seg i = exchange -> exch_seg j = exchange ->
      token i = token j -> name i = name j) ->
   forall ticker tok,
     token_lookup ticker l exchange = Ok (Some tok) ->
     symbol_lookup tok l exchange = Ok (Some ticker)) /\
  ((forall i j, In i l -> In j l ->
      equityb i = true -> equityb j = true ->
      exch_seg i = exchange -> exch_seg j = exchange ->
      name i = name j -> token i = token j) ->
   forall ticker tok,
     symbol_lookup tok l exchange = Ok (Some ticker) ->
     token_lookup ticker l exchange = Ok (Some tok)).
Proof.
  split; intros U ticker tok E.
  - destruct (token_lookup_some _ _ _ _ E) as (i & I & H & T).
    destruct (name_hit_parts _ _ _ H) as (N & X & Q).
    assert (H' : token_hit tok exchange i = true).
    { unfold token_hit. rewrite T, X, Q, !String.eqb_refl. reflexivity. }
    destruct (symbol_lookup_hit _ _ _ _ I H') as (n & S).
    rewrite S. do 2 f_equal.
    destruct (symbol_lookup_some _ _ _ _ S) as (j & J & HJ & NJ).
    destruct (token_hit_parts _ _ _ HJ) as (TJ & XJ & QJ).
    rewrite <- NJ, <- N. apply U; congruence.
  - destruct (symbol_lookup_some _ _ _ _ E) as (i & I & H & N).
    destruct (token_hit_parts _ _ _ H) as (T & X & Q).
    assert (H' : name_hit ticker exchange i = true).
    { unfold name_hit. rewrite N, X, Q, !String.eqb_refl. reflexivity. }
    destruct (token_lookup_hit _ _ _ _ I H') as (t & S).
    rewrite S. do 2 f_equal.
    destruct (token_lookup_some _ _ _ _ S) as (j & J & HJ & TJ).
    destruct (name_hit_parts _ _ _ HJ) as (NJ & XJ & QJ).
    rewrite <- TJ, <- T. apply U; congruence.
Qed.

Lemma lookups_round_trip_witness :
  token_lookup "B" [mkInstrument "A" "A-EQ" "NSE" "1";
                    mkInstrument "B" "B-EQ" "NSE" "2"] "NSE"
  = Ok (Some "2") /\
  symbol_lookup "2" [mkInstrument "A" "A-EQ" "NSE" "1";
                     mkInstrument "B" "B-EQ" "NSE" "2"] "NSE"
  = Ok (Some "B").
Proof.
  split; [reflexivity|].
  apply (proj1 (lookups_round_trip
                  [mkInstrument "A" "A-EQ" "NSE" "1";
                   mkInstrument "B" "B-EQ" "NSE" "2"] "NSE")).
  - intros i j [<-|[<-|[]]] [<-|[<-|[]]] _ _ _ _ T;
      (reflexivity || discriminate T).
  - reflexivity.
Defined.

(** ** The windows of [hist_data_extended] *)

Lemma token_lookup_returns (ticker exchange : string) (l : list instrument) :
  exists r, token_lookup ticker l exchange = Ok r.
Proof.
  induction l as [|i l IH]; [eexists; reflexivity|].
  rewrite token_lookup_step.
  destruct (name_hit ticker exchange i); [eexists; reflexivity|exact IH].
Qed.

Lemma window_count_zero (st_date end_date : Z) :
  (end_date <= st_date + days 30)%Z -> window_count st_date end_date = 0%nat.
Proof.
  intros H. unfold window_count, days in *.
  assert ((end_date - (st_date + 30 * 1440) + 31 * 1440 - 1) / (31 * 1440)
          <= 0)%Z; [|lia].
  apply Z.lt_succ_r. apply Z.div_lt_upper_bound; lia.
Qed.

Lemma window_count_succ (st_date end_date : Z) :
  (st_date + days 30 < end_date)%Z ->
  window_count st_date end_date
  = S (window_count (st_date + days 31) end_date).
Proof.
  intros H. unfold window_count, days in *.
  replace (end_date - (st_date + 30 * 1440) + 31 * 1440 - 1)%Z
    with ((end_date - (st_date + 31 * 1440 + 30 * 1440) + 31 * 1440 - 1)
          + 1 * (31 * 1440))%Z by lia.
  rewrite Z.div_add by lia.
  rewrite Z2Nat.inj_add; [lia | apply Z.div_pos; lia | lia].
Qed.

Section Windows.

Variables (obj : Broker) (ticker interval : string).
Variables (instrument_list : list instrument) (exch : string).
Variable tok : option string.
Hypothesis looked_up : token_lookup ticker instrument_list NSE = Ok tok.

Local Open Scope Z_scope.

Lemma turn_shift (st_date : Z) (n : nat) :
  flat_map (window_calls exch tok interval st_date) (seq 1 n)
  = flat_map (window_calls exch tok interval (st_date + days 31)) (seq 0 n).
Proof.
  rewrite <- seq_shift, flat_map_concat_map, map_map,
    <- flat_map_concat_map.
  apply flat_map_ext. intros k. unfold window_calls, window. do 3 f_equal.
  f_equal; unfold days; lia.
Qed.

Lemma paging_windows (fuel : nat) (end_date : Z) :
  forall s s',
    temp_end_date s = temp_st_date s + days 30 \/
    (end_date <= temp_end_date s /\ end_date <= temp_st_date s + days 30) ->
    paging fuel obj ticker interval instrument_list exch end_date s
    = Some (Ok s') ->
    calls s'
    = (calls s
       ++ flat_map (window_calls exch tok interval (temp_st_date s))
                   (seq 0 (window_count (temp_st_date s) end_date)))%list.
Proof.
  induction fuel as [|fuel IH]; intros s s' I E.
  - cbn [paging] in E.
    destruct (Z.ltb_spec (temp_end_date s) end_date); [discriminate|].
    injection E as <-. rewrite window_count_zero by lia.
    cbn. now rewrite app_nil_r.
  - destruct (Z.lt_ge_cases (temp_end_date s) end_date) as [L|G].
    + rewrite paging_step in E by exact L. cbv zeta in E.
      rewrite looked_up in E.
      destruct (getCandleData obj _ _); [|discriminate].
      apply IH in E.
      * cbn [calls temp_st_date] in E. rewrite E. clear E IH.
        destruct I as [I|I]; [|lia].
        replace (temp_end_date s + days 1) with (temp_st_date s + days 31)
          by (unfold days in *; lia).
        rewrite (window_count_succ (temp_st_date s)) by lia.
        cbn [seq flat_map]. rewrite turn_shift.
        assert (W : window exch tok interval (temp_st_date s) 0
                    = mkParams exch tok interval (temp_st_date s)
                               (temp_end_date s)).
        { unfold window. rewrite I. f_equal; unfold days; lia. }
        rewrite <- !app_assoc. cbn [app].
        unfold window_calls at 2. rewrite W. reflexivity.
      * cbn [temp_st_date temp_end_date]. unfold days in *. lia.
    + rewrite paging_exit in E by lia. injection E as <-.
      rewrite window_count_zero by lia. cbn. now rewrite app_nil_r.
Qed.

End Windows.

(** X6. The calls of [hist_data_extended], for every duration: a pause of
    0.4 s and a request for each window that starts 31 days after the one
    before, spans 30 days and ends before the overall end date, and
    nothing else.  The token of every request is the one [token_lookup]
    finds on NSE, whatever the [exchange] argument is. *)
Theorem hist_data_extended_windows (obj : Broker) (ticker interval : string)
  (instrument_list : list instrument) (exch : string) (duration : Z)
  (df : list indexed_row) (evs : list api_event) :
  hist_data_extended obj ticker duration interval instrument_list exch
  = Some (Ok (df, evs)) ->
  let st_date := (days (today obj - duration) + 210)%Z in
  let end_date := days (today obj - 1) in
  exists tok,
    token_lookup ticker instrument_list NSE = Ok tok /\
    evs = flat_map (window_calls exch tok interval st_date)
                   (seq 0 (window_count st_date end_date)).
Proof.
  intros E. cbv zeta.
  destruct (token_lookup_returns ticker NSE instrument_list) as (tok & T).
  exists tok. split; [exact T|].
  unfold hist_data_extended in E. cbv zeta in E.
  destruct (paging _ _ _ _ _ _ _ _) as [[s|e]|] eqn:P; try discriminate.
  injection E as _ <-.
  apply (paging_windows obj ticker interval instrument_list exch tok T) in P.
  - cbn [calls temp_st_date app] in P. rewrite P.
    replace (days (today obj - duration) + 3 * 60 + 30)%Z
      with (days (today obj - duration) + 210)%Z by lia.
    reflexivity.
  - left. reflexivity.
Qed.

Lemma hist_data_extended_windows_witness :
  hist_data_extended quiet_broker "FOO" 100 "ONE_DAY" [] "BSE"
  = Some (Ok ([],
       [Sleep 400;
        GetCandleData (mkParams "BSE" None "ONE_DAY" 27216210 27259410);
        Sleep 400;
        GetCandleData (mkParams "BSE" None "ONE_DAY" 27260850 27304050);
        Sleep 400;
        GetCandleData (mkParams "BSE" None "ONE_DAY" 27305490 27348690)])) /\
  exists tok,
    token_lookup "FOO" [] NSE = Ok tok /\
    [Sleep 400;
     GetCandleData (mkParams "BSE" None "ONE_DAY" 27216210 27259410);
     Sleep 400;
     GetCandleData (mkParams "BSE" None "ONE_DAY" 27260850 27304050);
     Sleep 400;
     GetCandleData (mkParams "BSE" None "ONE_DAY" 27305490 27348690)]
    = flat_map
        (window_calls "BSE" tok "ONE_DAY"
                      (days (today quiet_broker - 100) + 210))
        (seq 0 (window_count (days (today quiet_broker - 100) + 210)
                             (days (today quiet_broker - 1)))).
Proof.
  split; [vm_compute; reflexivity|].
  apply (hist_data_extended_windows quiet_broker "FOO" "ONE_DAY" [] "BSE" 100 []).
  vm_compute. reflexivity.
Defined.

(** X7. [hist_data_extended] returns for every duration and every
    broker: the loop ends, with the table and the calls made or with the
    exception of a call. *)
Theorem hist_data_extended_always_returns (obj : Broker)
  (ticker interval : string) (instrument_list : list instrument)
  (exch : string) (duration : Z) :
  (exists df evs,
     hist_data_extended obj ticker duration interval instrument_list exch
     = Some (Ok (df, evs))) \/
  (exists e,
     hist_data_extended obj ticker duration interval instrument_list exch
     = Some (Raise e)).
Proof.
  unfold hist_data_extended. cbv zeta.
  match goal with
  | |- context [paging ?f _ _ _ _ _ ?e ?s] =>
      destruct (paging_terminates obj ticker interval instrument_list exch
                  f e s) as (r & ->)
  end.
  - apply paging_fuel_enough.
  - destruct r; eauto.
Qed.



(** ** What [drop_duplicates] leaves *)

Lemma ohlcv_eqb_eq (a b : ohlcv) : ohlcv_eqb a b = true <-> a = b.
Proof.
  destruct a, b. unfold ohlcv_eqb. cbn.
  rewrite !andb_true_iff, !Z.eqb_eq. split.
  - intros ((((-> & ->) & ->) & ->) & ->). reflexivity.
  - intros H. injection H as -> -> -> -> ->. auto.
Qed.

Lemma seen_spec (v : ohlcv) (seen : list ohlcv) :
  existsb (ohlcv_eqb v) seen = true <-> In v seen.
Proof.
  rewrite existsb_exists. split.
  - intros (x & I & E). apply ohlcv_eqb_eq in E. now subst.
  - intros I. exists v. split; [exact I|]. now apply ohlcv_eqb_eq.
Qed.

Lemma drop_duplicates_from_facts (df : list indexed_row) :
  forall seen,
    NoDup (map vals (drop_duplicates_from seen df)) /\
    (forall r, In r (drop_duplicates_from seen df) ->
               In r df /\ ~ In (vals r) seen) /\
    (forall r, In r df ->
               In (vals r) seen \/
               In (vals r) (map vals (drop_duplicates_from seen df))).
Proof.
  induction df as [|r df IH]; intros seen.
  - cbn. repeat split; try constructor; contradiction.
  - cbn [drop_duplicates_from].
    destruct (existsb (ohlcv_eqb (vals r)) seen) eqn:S.
    + apply seen_spec in S. destruct (IH seen) as (N & K & A).
      split; [exact N|]. split.
      * intros x I. destruct (K x I). cbn. auto.
      * intros x [<-|I]; [auto|]. now apply A.
    + assert (S' : ~ In (vals r) seen).
      { intros I. apply seen_spec in I. congruence. }
      destruct (IH (vals r :: seen)) as (N & K & A).
      split; [|split].
      * cbn [map]. constructor; [|exact N].
        intros I. apply in_map_iff in I. destruct I as (x & E & I).
        destruct (K x I) as (_ & F). apply F. left. congruence.
      * intros x [<-|I]; [cbn; auto|].
        destruct (K x I) as (I' & F). split; [cbn; auto|].
        intros G. apply F. now right.
      * intros x [<-|I]; [right; cbn; auto|].
        destruct (A x I) as [[E|G]|G]; [|auto|right; cbn; auto].
        right. cbn. auto.
Qed.

(** X9. The table [hist_data_extended] returns never holds two rows with
    the same open, high, low, close and volume, whatever their
    timestamps are: of the rows fetched with equal values only one is
    left. *)
Theorem hist_data_extended_distinct_values (obj : Broker)
  (ticker interval : string) (instrument_list : list instrument)
  (exch : string) (duration : Z) (df : list indexed_row)
  (evs : list api_event) :
  hist_data_extended obj ticker duration interval instrument_list exch
  = Some (Ok (df, evs)) ->
  NoDup (map vals df).
Proof.
  unfold hist_data_extended. cbv zeta.
  destruct (paging _ _ _ _ _ _ _ _) as [[s|e]|]; try discriminate.
  intros H. injection H as <- _.
  apply (drop_duplicates_from_facts _ []).
Qed.

Lemma hist_data_extended_distinct_values_witness :
  hist_data_extended flat_price_broker "FOO" 65 "ONE_DAY" [] NSE
  = Some (Ok ([mkRow (mkTimestamp 27270000 None) bar_a],
              [Sleep 400;
               GetCandleData (mkParams NSE None "ONE_DAY" 27266610 27309810);
               Sleep 400;
               GetCandleData (mkParams NSE None "ONE_DAY" 27311250 27354450)]))
  /\ NoDup (map vals [mkRow (mkTimestamp 27270000 None) bar_a]).
Proof.
  split; [vm_compute; reflexivity|].
  apply (hist_data_extended_distinct_values flat_price_broker "FOO" "ONE_DAY"
           [] NSE 65 _
           [Sleep 400;
            GetCandleData (mkParams NSE None "ONE_DAY" 27266610 27309810);
            Sleep 400;
            GetCandleData (mkParams NSE None "ONE_DAY" 27311250 27354450)]).
  vm_compute. reflexivity.
Defined.

(** [drop_duplicates] keeps the first row of every combination of
    values and nothing else: what it returns has no two rows with the
    same values, comes from the table, and holds the values of every
    row of the table. *)
Theorem drop_duplicates_first_of_each (df : list indexed_row) :
  NoDup (map vals (drop_duplicates df)) /\
  (forall r, In r (drop_duplicates df) -> In r df) /\
  (forall r, In r df -> In (vals r) (map vals (drop_duplicates df))) /\
  (forall r rest, df = r :: rest -> In r (drop_duplicates df)).
Proof.
  unfold drop_duplicates.
  destruct (drop_duplicates_from_facts df []) as (N & K & A).
  repeat split; trivial.
  - intros r I. now destruct (K r I).
  - intros r I. destruct (A r I) as [[]|G]. exact G.
  - intros r rest ->. cbn. auto.
Qed.

Lemma drop_duplicates_first_of_each_witness :
  In (mkRow (mkTimestamp 2 None) bar_a)
     [mkRow (mkTimestamp 1 None) bar_a; mkRow (mkTimestamp 2 None) bar_a] /\
  In (vals (mkRow (mkTimestamp 2 None) bar_a))
     (map vals (drop_duplicates
                  [mkRow (mkTimestamp 1 None) bar_a;
                   mkRow (mkTimestamp 2 None) bar_a])).
Proof.
  split; [right; left; reflexivity|].
  apply (proj1 (proj2 (proj2 (drop_duplicates_first_of_each _)))).
  right. left. reflexivity.
Defined.

(** ** [hist_data] *)

Lemma first_occurrences_ext (tickers : list string) :
  forall s1 s2,
    (forall x, str_in x s1 = str_in x s2) ->
    first_occurrences s1 tickers = first_occurrences s2 tickers.
Proof.
  induction tickers as [|t rest IH]; intros s1 s2 E; [reflexivity|].
  cbn [first_occurrences]. rewrite (E t).
  destruct (str_in t s2); [now apply IH|].
  f_equal. apply IH. intros x. unfold str_in. cbn [existsb].
  now rewrite (E x : existsb _ s1 = existsb _ s2).
Qed.

Lemma update_keys {A : Type} (k : string) (v : A) (l : list (string * A)) :
  map fst (update k v l)
  = if str_in k (map fst l) then map fst l else (map fst l ++ [k])%list.
Proof.
  induction l as [|[k' v'] l IH]; [reflexivity|].
  cbn [update map fst str_in existsb]. unfold str_in in IH.
  destruct (String.eqb_spec k k') as [->|_]; [reflexivity|].
  cbn [map fst orb]. rewrite IH.
  destruct (existsb (String.eqb k) (map fst l)); reflexivity.
Qed.

Lemma str_in_app (x : string) (a b : list string) :
  str_in x (a ++ b)%list = str_in x a || str_in x b.
Proof. unfold str_in. apply existsb_app. Qed.

Section HistData.

Variables (obj : Broker) (now : list api_event -> Z).
Variables (duration : Z) (interval : string).
Variables (instrument_list : list instrument) (exch : string).

Lemma hist_data_loop_facts (tickers : list string) :
  forall acc made res evs,
    hist_data_loop obj now tickers duration interval instrument_list exch
                   acc made = Ok (res, evs) ->
    (exists ps,
       evs = (made ++ map GetCandleData ps)%list /\
       Forall2 (fun t p =>
                  token_lookup t instrument_list NSE = Ok (symboltoken p) /\
                  exchange p = exch /\ Utils.interval p = interval /\
                  fromdate p = days (today obj - duration))
               tickers ps) /\
    map fst res
    = (map fst acc ++ first_occurrences (map fst acc) tickers)%list /\
    (Forall (fun kv => Forall (fun r => utc_offset (idx r) = None) (snd kv))
            acc ->
     Forall (fun kv => Forall (fun r => utc_offset (idx r) = None) (snd kv))
            res).
Proof.
  induction tickers as [|t rest IH]; intros acc made res evs E.
  - cbn in E. injection E as <- <-. split; [|split].
    + exists []. split; [now rewrite app_nil_r|constructor].
    + cbn. now rewrite app_nil_r.
    + trivial.
  - cbn [hist_data_loop] in E.
    destruct (token_lookup t instrument_list NSE) as [tok|] eqn:T;
      [|discriminate].
    cbn [bind] in E.
    destruct (getCandleData obj made _) as [rows|] eqn:G; [|discriminate].
    cbn [bind] in E. cbv zeta in E.
    destruct (IH _ _ _ _ E) as ((ps & -> & F) & K & N). split; [|split].
    + eexists (_ :: ps). split.
      * rewrite <- app_assoc. reflexivity.
      * constructor; [cbn; auto|exact F].
    + rewrite K, update_keys. cbn [first_occurrences].
      destruct (str_in t (map fst acc)) eqn:S; [reflexivity|].
      rewrite <- app_assoc. cbn [app]. do 2 f_equal.
      apply first_occurrences_ext. intros x.
      rewrite str_in_app. unfold str_in. cbn [existsb].
      now rewrite orb_false_r, orb_comm.
    + intros A. apply N. clear -A.
      induction acc as [|[k v] acc IHa]; cbn [update].
      * constructor; [|constructor]. cbn.
        unfold tz_localize_none. apply Forall_map, Forall_forall.
        reflexivity.
      * inversion A as [|? ? A1 A2]; subst.
        destruct (String.eqb t k).
        -- constructor; [|exact A2]. cbn.
           unfold tz_localize_none. apply Forall_map, Forall_forall.
           reflexivity.
        -- constructor; [exact A1|now apply IHa].
Qed.

End HistData.

(** X10. [hist_data] makes one request for each ticker, in the order of
    the tickers and with no pause between them.  Every request starts at
    midnight [duration] days ago and carries the token [token_lookup]
    finds on NSE, whatever the [exchange] argument is. *)
Theorem hist_data_requests (obj : Broker) (now : list api_event -> Z)
  (tickers : list string) (duration : Z) (interval : string)
  (instrument_list : list instrument) (exch : string)
  (res : list (string * list indexed_row)) (evs : list api_event) :
  hist_data obj now tickers duration interval instrument_list exch
  = Ok (res, evs) ->
  exists ps,
    evs = map GetCandleData ps /\
    Forall2 (fun t p =>
               token_lookup t instrument_list NSE = Ok (symboltoken p) /\
               exchange p = exch /\ Utils.interval p = interval /\
               fromdate p = days (today obj - duration))
            tickers ps.
Proof.
  intros E.
  destruct (hist_data_loop_facts obj now duration interval instrument_list
              exch tickers [] [] res evs E) as ((ps & -> & F) & _).
  exists ps. auto.
Qed.

(** X11. The mapping [hist_data] returns has one entry for each ticker,
    in the order in which the tickers first occur, also when a ticker is
    listed several times; the index of every table is timezone-naive. *)
Theorem hist_data_keys (obj : Broker) (now : list api_event -> Z)
  (tickers : list string) (duration : Z) (interval : string)
  (instrument_list : list instrument) (exch : string)
  (res : list (string * list indexed_row)) (evs : list api_event) :
  hist_data obj now tickers duration interval instrument_list exch
  = Ok (res, evs) ->
  map fst res = first_occurrences [] tickers /\
  Forall (fun kv => Forall (fun r => utc_offset (idx r) = None) (snd kv)) res.
Proof.
  intros E.
  destruct (hist_data_loop_facts obj now duration interval instrument_list
              exch tickers [] [] res evs E) as (_ & K & N).
  split; [exact K|]. apply N. constructor.
Qed.

Lemma hist_data_requests_witness :
  hist_data same_time_broker (fun _ => 27360000%Z) ["FOO"; "BAR"; "FOO"] 5
            "ONE_DAY" [mkInstrument "FOO" "FOO-EQ" "NSE" "123"] "BSE"
  = Ok ([("FOO", [mkRow (mkTimestamp 27270000 None) bar_b]);
         ("BAR", [mkRow (mkTimestamp 27270000 None) bar_b])],
        [GetCandleData (mkParams "BSE" (Some "123") "ONE_DAY" 27352800 27360000);
         GetCandleData (mkParams "BSE" None "ONE_DAY" 27352800 27360000);
         GetCandleData (mkParams "BSE" (Some "123") "ONE_DAY" 27352800 27360000)])
  /\ exists ps,
       [GetCandleData (mkParams "BSE" (Some "123") "ONE_DAY" 27352800 27360000);
        GetCandleData (mkParams "BSE" None "ONE_DAY" 27352800 27360000);
        GetCandleData (mkParams "BSE" (Some "123") "ONE_DAY" 27352800 27360000)]
       = map GetCandleData ps /\
       Forall2 (fun t p =>
                  token_lookup t [mkInstrument "FOO" "FOO-EQ" "NSE" "123"] NSE
                  = Ok (symboltoken p) /\
                  exchange p = "BSE" /\ Utils.interval p = "ONE_DAY" /\
                  fromdate p = days (today same_time_broker - 5))
               ["FOO"; "BAR"; "FOO"] ps.
Proof.
  split; [vm_compute; reflexivity|].
  apply (hist_data_requests same_time_broker (fun _ => 27360000%Z)
           ["FOO"; "BAR"; "FOO"] 5 "ONE_DAY"
           [mkInstrument "FOO" "FOO-EQ" "NSE" "123"] "BSE"
           [("FOO", [mkRow (mkTimestamp 27270000 None) bar_b]);
            ("BAR", [mkRow (mkTimestamp 27270000 None) bar_b])]).
  vm_compute. reflexivity.
Defined.

Lemma hist_data_keys_witness :
  hist_data same_time_broker (fun _ => 27360000%Z) ["FOO"; "BAR"; "FOO"] 5
            "ONE_DAY" [mkInstrument "FOO" "FOO-EQ" "NSE" "123"] "BSE"
  = Ok ([("FOO", [mkRow (mkTimestamp 27270000 None) bar_b]);
         ("BAR", [mkRow (mkTimestamp 27270000 None) bar_b])],
        [GetCandleData (mkParams "BSE" (Some "123") "ONE_DAY" 27352800 27360000);
         GetCandleData (mkParams "BSE" None "ONE_DAY" 27352800 27360000);
         GetCandleData (mkParams "BSE" (Some "123") "ONE_DAY" 27352800 27360000)])
  /\ map fst [("FOO", [mkRow (mkTimestamp 27270000 None) bar_b]);
              ("BAR", [mkRow (mkTimestamp 27270000 None) bar_b])]
     = first_occurrences [] ["FOO"; "BAR"; "FOO"].
Proof.
  split; [vm_compute; reflexivity|].
  apply (hist_data_keys same_time_broker (fun _ => 27360000%Z)
           ["FOO"; "BAR"; "FOO"] 5 "ONE_DAY"
           [mkInstrument "FOO" "FOO-EQ" "NSE" "123"] "BSE" _
           [GetCandleData (mkParams "BSE" (Some "123") "ONE_DAY" 27352800 27360000);
            GetCandleData (mkParams "BSE" None "ONE_DAY" 27352800 27360000);
            GetCandleData (mkParams "BSE" (Some "123") "ONE_DAY" 27352800 27360000)]).
  vm_compute. reflexivity.
Defined.

(** ** Adjusting an adjusted path *)

Lemma split_head_free (c : ascii) (s : string) :
  forall cur, exists h t,
    split_go (String c EmptyString) 0 cur s = (rev cur ++ h) :: t /\
    free_of c h = true.
Proof.
  induction s as [|a s IH]; intros cur.
  - exists EmptyString, []. cbn. now rewrite append_nil_r.
  - cbn [split_go]. rewrite prefix_char.
    destruct (Ascii.eqb c a) eqn:E.
    + exists EmptyString. eexists. rewrite append_nil_r. split; reflexivity.
    + destruct (IH (String a cur)) as (h & t & -> & F).
      exists (String a h), t. rewrite rev_cons, append_assoc.
      split; [reflexivity|]. cbn [free_of]. now rewrite E.
Qed.

Lemma concat_head (sep x : string) (t : list string) :
  exists rest, String.concat sep (x :: t) = x ++ rest.
Proof.
  destruct t as [|y t].
  - exists EmptyString. cbn. now rewrite append_nil_r.
  - eexists. reflexivity.
Qed.

Lemma upper_char_slash (c : ascii) :
  Ascii.eqb "/"%char (upper_char c) = Ascii.eqb "/"%char c.
Proof.
  destruct c as [[] [] [] [] [] [] [] []]; vm_compute; reflexivity.
Qed.

Lemma is_win_of_linux (q : string) :
  is_linux q = true ->
  is_win q = Ok false \/ exists m, is_win q = Raise (IndexError m).
Proof.
  unfold is_linux, startswith, is_win, char_at.
  destruct q as [|c [|d q]]; cbn [String.prefix get]; try discriminate.
  - intros _. right. eexists. reflexivity.
  - destruct (ascii_dec "/"%char c) as [<-|]; [|discriminate]. intros _.
    cbn [bind]. destruct (Ascii.eqb d ":"%char); [|auto].
    left. reflexivity.
Qed.

Lemma is_win_cases (q : string) :
  (exists b, is_win q = Ok b) \/ exists m, is_win q = Raise (IndexError m).
Proof.
  unfold is_win, char_at. destruct (get 1 q); cbn [bind].
  - destruct (Ascii.eqb a ":"%char); [|eauto].
    destruct (get 0 q); cbn [bind]; eauto.
  - eauto.
Qed.

(** What [linux_to_win] builds is not POSIX-style. *)
Lemma linux_to_win_not_linux (path q : string) :
  is_win path = Ok false -> linux_to_win path = Ok q -> is_linux q = false.
Proof.
  intros W. unfold linux_to_win. rewrite W. cbn [bind]. unfold split.
  destruct (split_head_free "/" (replace "/mnt/" EmptyString path) EmptyString)
    as (h & t & -> & F).
  change (rev EmptyString ++ h) with h.
  cbn [list_first list_set_first bind].
  intros E. injection E as <-. unfold join.
  destruct t as [|y t]; unfold is_linux, startswith;
    (destruct h as [|a h]; [reflexivity|]);
    cbn [upper map_chars append]; rewrite prefix_char, upper_char_slash;
    cbn [free_of] in F; apply andb_prop in F; destruct F as [F _];
    now apply negb_true_iff in F.
Qed.

Lemma adj_path_again (system path q : string) :
  adj_path system path = Ok q -> adj_path system q = Ok q.
Proof.
  intros E. assert (E0 := E). unfold adj_path in E.
  destruct (is_win path) as [[|]|e] eqn:W; cbn [bind] in E.
  - destruct (String.eqb_spec (lower system) "linux") as [S|S].
    + destruct (win_to_linux_is_linux path) as (q' & C & L).
      rewrite C in E. cbn in E. injection E as <-.
      unfold adj_path. destruct (is_win_of_linux q' L) as [-> | (m & ->)];
        [|reflexivity].
      cbn [bind]. rewrite L, S. reflexivity.
    + cbn in E. injection E as <-. exact E0.
  - destruct (is_linux path) eqn:L.
    + destruct (String.eqb_spec (lower system) "windows") as [S|S].
      * destruct (linux_to_win path) as [q'|e'] eqn:C;
          [|destruct e'; cbn in E; congruence].
        cbn in E. injection E as <-.
        pose proof (linux_to_win_not_linux _ _ W C) as N.
        unfold adj_path.
        destruct (is_win_cases q') as [([|] & ->) | (m & ->)]; cbn [bind];
          rewrite ?N, ?S; reflexivity.
      * cbn in E. injection E as <-. exact E0.
    + cbn in E. injection E as <-. exact E0.
  - destruct e; cbn in E; try discriminate. injection E as <-. exact E0.
Qed.

Lemma adj_path_returns (system path : string) :
  exists q, adj_path system path = Ok q.
Proof.
  unfold adj_path.
  destruct (is_win_cases path) as [([|] & W) | (m & W)]; rewrite W;
    cbn [bind].
  - destruct (String.eqb (lower system) "linux").
    + destruct (win_to_linux_is_linux path) as (q & -> & _). cbn. eauto.
    + cbn. eauto.
  - destruct (is_linux path).
    + destruct (String.eqb (lower system) "windows").
      * destruct (linux_to_win_returns _ _ W) as (q & ->). cbn. eauto.
      * cbn. eauto.
    + cbn. eauto.
  - cbn. eauto.
Qed.

(** X12. [adj_path] is idempotent on every host: it returns a path, and
    that path is returned unchanged when it is adjusted again, so the
    functions that adjust a path that was adjusted before ([write] on
    its retry, [read] on the files of a directory) work on the same
    path. *)
Theorem adj_path_idempotent (system path : string) :
  exists q, adj_path system path = Ok q /\ adj_path system q = Ok q.
Proof.
  destruct (adj_path_returns system path) as (q & E).
  exists q. split; [exact E|]. exact (adj_path_again _ _ _ E).
Qed.

Example adj_path_twice :
  adj_path "Windows" "/mnt/c/Users/x" = Ok (windows_path "C" ["Users"; "x"])
  /\ adj_path "Windows" (windows_path "C" ["Users"; "x"])
     = Ok (windows_path "C" ["Users"; "x"]).
Proof. split; reflexivity. Qed.

(** X13. On a path that [adj_path] returned, [exists] asks the same
    question with and without adjustment, and [exists] and [listdir]
    called on the original path ask about that adjusted path: adjusting
    before the call or inside it makes no difference. *)
Theorem exists_listdir_adjusted (w : World) (path q : string)
  (h : list event) :
  adj_path (system w) path = Ok q ->
  exists_ w q true h = exists_ w q false h /\
  exists_ w path true h = exists_ w q false h /\
  listdir w path h = listdir w q h /\
  fst (exists_ w path true h) = (h ++ [Call "os.path.exists" [VStr q] []])%list.
Proof.
  intros E. pose proof (adj_path_again _ _ _ E) as E2.
  unfold exists_, listdir. rewrite E, E2. repeat split; reflexivity.
Qed.

Lemma exists_listdir_adjusted_witness :
  adj_path (system plain_world) (windows_path "C" ["Users"; "x"])
  = Ok "/mnt/c/Users/x" /\
  exists_ plain_world (windows_path "C" ["Users"; "x"]) true []
  = exists_ plain_world "/mnt/c/Users/x" false [].
Proof.
  split; [reflexivity|].
  apply (exists_listdir_adjusted plain_world (windows_path "C" ["Users"; "x"])
           "/mnt/c/Users/x" []).
  reflexivity.
Defined.

(** X14. A Windows path made of an upper-case drive letter and of
    segments without colon, slash or backslash survives the round trip
    [linux_to_win (win_to_linux p)], provided its POSIX form holds no
    [/mnt/] after the prefix: the last segment may be [mnt], an earlier
    one may not. *)
Theorem windows_round_trip (drive : ascii) (segments : list string) :
  isupper_char drive = true ->
  Forall (fun seg => plain seg = true) segments ->
  contains "/mnt/" (String (lower_char drive) (sep_join "/"%char segments))
  = false ->
  is_win (windows_path drive segments) = Ok true /\
  (q <- win_to_linux (windows_path drive segments) ;; linux_to_win q)
  = Ok (windows_path drive segments).
Proof.
  intros U P C. destruct (round_trip_plain drive segments U P C) as (A & B).
  split.
  - unfold is_win, windows_path, char_at. cbn. now rewrite U.
  - rewrite A. cbn [bind]. exact B.
Qed.

Lemma windows_round_trip_witness :
  isupper_char "D" = true /\
  Forall (fun seg => plain seg = true) ["data"; "mnt"] /\
  (q <- win_to_linux (windows_path "D" ["data"; "mnt"]) ;; linux_to_win q)
  = Ok (windows_path "D" ["data"; "mnt"]).
Proof.
  split; [reflexivity|]. split; [repeat constructor|].
  apply (windows_round_trip "D" ["data"; "mnt"]).
  - reflexivity.
  - repeat constructor.
  - reflexivity.
Defined.

(** ** The depth of [read] *)

Section Finishes.

Variable w : World.

Lemma finishes_ret {A : Type} (a : A) : finishes (ret a).
Proof. intros h. discriminate. Qed.

Lemma finishes_raise {A : Type} (e : exn) : finishes (@raise A e).
Proof. intros h. discriminate. Qed.

Lemma finishes_lift {A : Type} (r : result A) : finishes (lift r).
Proof. intros h. discriminate. Qed.

Lemma finishes_call (fn : string) (args : list value) (kw : kwargs) :
  finishes (call w fn args kw).
Proof. intros h. discriminate. Qed.

Lemma finishes_glob (pattern : string) : finishes (call_glob w pattern).
Proof. intros h. discriminate. Qed.

Lemma finishes_bind {A B : Type} (m : M A) (k : A -> M B) :
  finishes m -> (forall a, finishes (k a)) -> finishes (bindM m k).
Proof.
  intros Hm Hk h. unfold bindM. specialize (Hm h).
  destruct (m h) as [h' [[a|e]|]]; cbn in *; [apply Hk|discriminate|congruence].
Qed.

Lemma finishes_try {A : Type} (c : exn -> bool) (m : M A)
  (handler : exn -> M A) :
  finishes m -> (forall e, finishes (handler e)) ->
  finishes (try_catch c m handler).
Proof.
  intros Hm Hk h. unfold try_catch. specialize (Hm h).
  destruct (m h) as [h' [[a|e]|]]; cbn in *; try discriminate; [|congruence].
  destruct (c e); [apply Hk|discriminate].
Qed.

Lemma finishes_for_each {A S : Type} (l : list A) (body : A -> S -> M S) :
  (forall x s, finishes (body x s)) -> forall s, finishes (for_each l body s).
Proof.
  intros Hb. induction l as [|x l IH]; intros s; cbn [for_each].
  - apply finishes_ret.
  - apply finishes_bind; [apply Hb|exact IH].
Qed.

Lemma finishes_with_storage (kw : kwargs) : finishes (with_storage w kw).
Proof.
  unfold with_storage, get_storage_options. apply finishes_bind.
  - destruct (storage_options w); [apply finishes_ret|apply finishes_raise].
  - intros so. apply finishes_ret.
Qed.

Lemma finishes_read_preprocess (df : value) : finishes (read_preprocess w df).
Proof.
  unfold read_preprocess. destruct df; try apply finishes_raise.
  destruct (str_in _ _); [apply finishes_call|apply finishes_ret].
Qed.

Lemma for_each_ext {A S : Type} (l : list A) (body body' : A -> S -> M S) :
  (forall x s h, body x s h = body' x s h) ->
  forall s h, for_each l body s h = for_each l body' s h.
Proof.
  intros E. induction l as [|x l IH]; intros s h; [reflexivity|].
  cbn [for_each]. unfold bindM. rewrite E.
  destruct (body' x s h) as [h' [[a|e]|]]; trivial.
Qed.

Lemma bind_lift {A B : Type} (r : result A) (k : A -> M B)
  (h : list event) :
  bindM (lift r) k h
  = match r with Ok a => k a h | Raise e => (h, Ret (Raise e)) end.
Proof. destruct r; reflexivity. Qed.

Lemma bind_ext {A B : Type} (m m' : M A) (k k' : A -> M B) (h : list event) :
  m h = m' h -> (forall a h', k a h' = k' a h') ->
  bindM m k h = bindM m' k' h.
Proof.
  intros Em Ek. unfold bindM. rewrite Em.
  destruct (m' h) as [h' [[a|e]|]]; trivial.
Qed.

End Finishes.

Ltac finish w :=
  repeat first
    [ apply finishes_ret | apply finishes_raise | apply finishes_lift
    | apply (finishes_call w) | apply (finishes_glob w)
    | apply (finishes_read_preprocess w) | apply (finishes_with_storage w)
    | apply finishes_bind; [|intros ?]
    | apply finishes_try; [|intros ?]
    | match goal with
      | |- finishes (if ?b then _ else _) => destruct b
      end ].

(** Without a [concat] argument [read] does not call itself: one level
    of fuel is as good as any. *)
Lemma read_no_concat (fuel : nat) (w : World) (filepath : string)
  (kw : kwargs) (h : list event) :
  read (S fuel) w filepath None kw h = read 1 w filepath None kw h.
Proof.
  cbn [read]. rewrite !bind_lift.
  destruct (adj_path (system w) filepath) as [fp|e]; [|reflexivity].
  destruct (String.eqb (read_ext w fp) EmptyString); reflexivity.
Qed.

Lemma read_no_concat_finishes (w : World) (filepath : string) (kw : kwargs) :
  finishes (read 1 w filepath None kw).
Proof.
  cbn [read]. apply finishes_bind; [apply finishes_lift|]. intros fp.
  cbv zeta. destruct (String.eqb (read_ext w fp) EmptyString).
  - change (negb (is_parquet (ConcatStr "parquet"))) with false. cbv iota.
    finish w.
  - finish w.
Qed.

(** X15. [read] calls itself at most one level deep: the files a
    [concat] argument finds are read without [concat], and such a read
    never lists a directory again.  So [read] always returns (a value or
    an exception), and two levels of fuel give the result of any
    larger amount. *)
Theorem read_depth_two (fuel : nat) (w : World) (filepath : string)
  (concat : option concat_arg) (kw : kwargs) (h : list event) :
  read (S (S fuel)) w filepath concat kw h = read 2 w filepath concat kw h /\
  snd (read 2 w filepath concat kw h) <> OutOfFuel /\
  read (S fuel) w filepath None kw h = read 1 w filepath None kw h.
Proof.
  split; [|split].
  - destruct concat as [c|];
      [|rewrite (read_no_concat (S fuel)), (read_no_concat 1); reflexivity].
    cbn [read]. rewrite !bind_lift.
    destruct (adj_path (system w) filepath) as [fp|e]; [|reflexivity].
    destruct (negb (is_parquet c)); [|reflexivity].
    apply bind_ext; [reflexivity|]. intros [|f files] h'; [reflexivity|].
    apply bind_ext; [|reflexivity].
    apply for_each_ext. intros x s0 h0.
    apply bind_ext; [|reflexivity]. apply read_no_concat.
  - revert h. change (finishes (read 2 w filepath concat kw)).
    destruct concat as [c|].
    + cbn [read]. apply finishes_bind; [apply finishes_lift|]. intros fp.
      cbv zeta. destruct (negb (is_parquet c)); [|finish w].
      apply finishes_bind.
      * apply finishes_for_each. intros x s0. finish w.
      * intros [|f files]; [apply finishes_ret|].
        apply finishes_bind; [|intros; apply finishes_call].
        apply finishes_for_each. intros x s0.
        apply finishes_bind; [|intros; apply finishes_ret].
        apply read_no_concat_finishes.
    + intros h. rewrite (read_no_concat 1). apply read_no_concat_finishes.
  - apply read_no_concat.
Qed.

(** ** What [read] does with the value of a reader *)

Lemma drop_column_columns (c : string) (df : DataFrame) :
  columns (drop_column c df)
  = filter (fun k => negb (String.eqb k c)) (columns df).
Proof.
  unfold columns, drop_column. cbn [cols].
  induction (cols df) as [|[k v] l IH]; [reflexivity|].
  cbn [filter map fst]. destruct (String.eqb k c); cbn [negb map fst];
    now rewrite IH.
Qed.

Lemma drop_column_lookup (c k : string) (df : DataFrame) :
  k <> c -> getitem k (drop_column c df) = getitem k df.
Proof.
  intros N. unfold getitem, drop_column. cbn [cols].
  induction (cols df) as [|[k' v] l IH]; [reflexivity|].
  cbn [filter fst lookup].
  destruct (String.eqb_spec k' c) as [->|D]; cbn [negb lookup].
  - destruct (String.eqb_spec k c); [contradiction|]. exact IH.
  - destruct (String.eqb k k'); [reflexivity|exact IH].
Qed.

Lemma drop_column_twice (c : string) (df : DataFrame) :
  drop_column c (drop_column c df) = drop_column c df.
Proof.
  unfold drop_column. cbn [cols index]. f_equal.
  induction (cols df) as [|[k v] l IH]; [reflexivity|].
  cbn [filter fst]. destruct (String.eqb k c) eqn:E; cbn [negb]; [exact IH|].
  cbn [filter fst]. rewrite E. cbn [negb]. now rewrite IH.
Qed.

(** X16. On a table without a [date] column [read_preprocess] makes no
    call: it returns the table without the column [Unnamed: 0], with the
    index, the other columns and their order unchanged, and applying it
    again changes nothing.  A value that is not a table (the mapping of
    sheets a spreadsheet reader can return, or [None]) makes it raise
    [AttributeError]. *)
Theorem read_preprocess_table (w : World) (df : DataFrame) (h : list event) :
  (str_in "date" (columns df) = false ->
   let out := drop_column "Unnamed: 0" df in
   read_preprocess w (VFrame df) h = (h, Ret (Ok (VFrame out))) /\
   read_preprocess w (VFrame out) h = (h, Ret (Ok (VFrame out))) /\
   ~ In "Unnamed: 0" (columns out) /\
   columns out
   = filter (fun k => negb (String.eqb k "Unnamed: 0")) (columns df) /\
   index out = index df /\
   (forall k, k <> "Unnamed: 0" -> getitem k out = getitem k df)) /\
  (forall sheets,
     read_preprocess w (VDict sheets) h
     = (h, Ret (Raise (AttributeError "object has no attribute 'drop'")))) /\
  read_preprocess w VNone h
  = (h, Ret (Raise (AttributeError "object has no attribute 'drop'"))).
Proof.
  split; [|split; reflexivity].
  intros D. cbv zeta.
  assert (D' : str_in "date" (columns (drop_column "Unnamed: 0" df)) = false).
  { rewrite drop_column_columns. unfold str_in in *.
    apply not_true_is_false. intros E. apply existsb_exists in E.
    destruct E as (x & I & E). apply filter_In in I. destruct I as (I & _).
    assert (T : existsb (String.eqb "date") (columns df) = true)
      by (apply existsb_exists; eauto).
    congruence. }
  repeat split.
  - unfold read_preprocess. now rewrite D'.
  - unfold read_preprocess. rewrite drop_column_twice. now rewrite D'.
  - rewrite drop_column_columns. intros I. apply filter_In in I.
    destruct I as (_ & E). now rewrite String.eqb_refl in E.
  - apply drop_column_columns.
  - intros k N. now apply drop_column_lookup.
Qed.

Lemma read_preprocess_table_witness :
  str_in "date" (columns (mkFrame [CInt 0] [("Unnamed: 0", [CInt 0]);
                                            ("close", [CInt 7])])) = false /\
  read_preprocess plain_world
    (VFrame (mkFrame [CInt 0] [("Unnamed: 0", [CInt 0]); ("close", [CInt 7])]))
    []
  = ([], Ret (Ok (VFrame (mkFrame [CInt 0] [("close", [CInt 7])])))).
Proof.
  split; [reflexivity|].
  apply (proj1 (read_preprocess_table plain_world
                  (mkFrame [CInt 0] [("Unnamed: 0", [CInt 0]);
                                     ("close", [CInt 7])]) [])).
  reflexivity.
Defined.

(** X17. [read] of a spreadsheet passes what [pd.read_excel] returns to
    [read_preprocess]: when the reader returns a mapping of sheets
    rather than one table, [read] raises [AttributeError] after that one
    call. *)
Theorem read_excel_sheets (fuel : nat) (w : World) (filepath fp : string)
  (kw : kwargs) (h : list event) (so : value)
  (sheets : list (string * value)) :
  adj_path (system w) filepath = Ok fp ->
  str_in (read_ext w fp) ["xlsx"; "xls"] = true ->
  has_key "conn" kw = false ->
  has_key "model" kw = false ->
  storage_options w = Some so ->
  respond w h (Call "pd.read_excel" [VStr fp] (("storage_options", so) :: kw))
  = Ok (VDict sheets) ->
  read (S fuel) w filepath None kw h
  = ((h ++ [Call "pd.read_excel" [VStr fp] (("storage_options", so) :: kw)])%list,
     Ret (Raise (AttributeError "object has no attribute 'drop'"))).
Proof.
  intros A X C M S R. cbn [read]. rewrite bind_lift, A. cbv zeta.
  assert (N : String.eqb (read_ext w fp) EmptyString = false).
  { destruct (String.eqb_spec (read_ext w fp) EmptyString) as [E|]; trivial.
    rewrite E in X. discriminate X. }
  rewrite N, C, M, X.
  unfold with_storage, get_storage_options. rewrite S.
  unfold bindM, ret, call. rewrite R. reflexivity.
Qed.

Lemma read_excel_sheets_witness :
  read_ext sheets_world "book.xlsx" = "xlsx" /\
  read 1 sheets_world "book.xlsx" None [] []
  = ([Call "pd.read_excel" [VStr "book.xlsx"] [("storage_options", VNone)]],
     Ret (Raise (AttributeError "object has no attribute 'drop'"))).
Proof.
  split; [reflexivity|].
  apply (read_excel_sheets 0 sheets_world "book.xlsx" "book.xlsx" [] [] VNone
           [("Sheet1", VFrame mixed)]); reflexivity.
Defined.

(** ** The edges of [write] *)

Lemma split_absent (sep s : string) :
  contains sep s = false ->
  forall cur, split_go sep 0 cur s = [rev cur ++ s].
Proof.
  induction s as [|a s IH]; intros C cur.
  - cbn. now rewrite append_nil_r.
  - cbn [contains] in C. apply orb_false_elim in C. destruct C as [P C].
    cbn [split_go]. rewrite P, (IH C), rev_cons, append_assoc. reflexivity.
Qed.

Lemma named_column_absent (e : exn) :
  contains "column " (str_exn e) = false ->
  named_column e = Raise (IndexError "list index out of range").
Proof.
  intros C. unfold named_column, split. now rewrite (split_absent _ _ C).
Qed.

(** The start of every [write]: the path is adjusted and the directory
    made, then the extension is taken. *)
Ltac write_start w fp A Mk E :=
  cbn [write]; rewrite bind_lift, A; unfold bindM at 1; unfold call at 1;
  fold (makedirs_call w fp); rewrite Mk; rewrite bind_lift, E.

Section WriteEdges.

Variables (w : World) (filepath fp : string) (kw : kwargs).
Hypothesis adjusted : adj_path (system w) filepath = Ok fp.

(** X18. The extension [pickle] passes the test of the supported
    extensions and has no branch: [write] makes the directory, writes
    nothing and returns without an error. *)
Theorem write_pickle_writes_nothing (fuel : nat) (data : value)
  (h : list event) (a : value) :
  list_last (split "." fp) = Ok "pickle" ->
  respond w h (makedirs_call w fp) = Ok a ->
  str_in "pickle" write_supported = true /\
  write (S fuel) w data filepath kw h
  = ((h ++ [makedirs_call w fp])%list, Ret (Ok data)).
Proof.
  intros E Mk. split; [reflexivity|].
  write_start w fp adjusted Mk E. reflexivity.
Qed.

(** X19. [write] checks the type of [data] after it made the directory
    and before any write call: for a csv or parquet path and a value
    that is not a table, and for a spreadsheet path and a value that is
    neither a mapping nor a table, it raises [AssertionError] with
    [os.makedirs] as its only call. *)
Theorem write_asserts_after_makedirs (fuel : nat) (data : value)
  (h : list event) (a : value) (ext : string) :
  list_last (split "." fp) = Ok ext ->
  respond w h (makedirs_call w fp) = Ok a ->
  (forall df, data <> VFrame df) ->
  (ext = "csv" \/ ext = "parquet" \/
   ((ext = "xlsx" \/ ext = "xls") /\ forall sheets, data <> VDict sheets)) ->
  write (S fuel) w data filepath kw h
  = ((h ++ [makedirs_call w fp])%list, Ret (Raise AssertionError)).
Proof.
  intros E Mk F X.
  write_start w fp adjusted Mk E.
  destruct X as [->|[->|([->| ->] & D)]];
    (destruct data as [| | | |df|l|sheets|id];
     try reflexivity;
     try (exfalso; apply (F df); reflexivity);
     try (exfalso; apply (D sheets); reflexivity)).
Qed.

(** X20. When the application has not defined [storage_options], a csv
    write raises [NameError], and a parquet write raises [IndexError]:
    its handler catches the [NameError], finds no column name in the
    message and fails on the index.  In both cases no write call is
    made. *)
Theorem write_without_storage_options (fuel : nat) (df : DataFrame)
  (h : list event) (a : value) :
  storage_options w = None ->
  respond w h (makedirs_call w fp) = Ok a ->
  (list_last (split "." fp) = Ok "csv" ->
   write (S fuel) w (VFrame df) filepath kw h
   = ((h ++ [makedirs_call w fp])%list,
      Ret (Raise (NameError "storage_options")))) /\
  (list_last (split "." fp) = Ok "parquet" ->
   write (S fuel) w (VFrame df) filepath kw h
   = ((h ++ [makedirs_call w fp])%list,
      Ret (Raise (IndexError "list index out of range")))).
Proof.
  intros S Mk. split; intros E; write_start w fp adjusted Mk E.
  - cbn [str_in existsb write_supported negb]. cbv iota.
    unfold bindM, assert_frame, with_storage, get_storage_options, ret, raise.
    rewrite S. reflexivity.
  - cbn [str_in existsb write_supported negb]. cbv iota.
    unfold try_catch, bindM, assert_frame, with_storage, get_storage_options,
      ret, raise, lift.
    rewrite S. reflexivity.
Qed.

End WriteEdges.

Lemma write_pickle_writes_nothing_witness :
  adj_path (system plain_world) "out/model.pickle" = Ok "out/model.pickle" /\
  list_last (split "." "out/model.pickle") = Ok "pickle" /\
  write 1 plain_world (VObject 1) "out/model.pickle" [] []
  = ([makedirs_call plain_world "out/model.pickle"], Ret (Ok (VObject 1))).
Proof.
  split; [reflexivity|]. split; [reflexivity|].
  apply (proj2 (write_pickle_writes_nothing plain_world "out/model.pickle"
                  "out/model.pickle" [] eq_refl 0 (VObject 1) [] VNone
                  eq_refl eq_refl)).
Defined.

Lemma write_asserts_after_makedirs_witness :
  list_last (split "." "out/data.csv") = Ok "csv" /\
  write 1 plain_world (VList []) "out/data.csv" [] []
  = ([makedirs_call plain_world "out/data.csv"], Ret (Raise AssertionError)).
Proof.
  split; [reflexivity|].
  apply (write_asserts_after_makedirs plain_world "out/data.csv"
           "out/data.csv" [] eq_refl 0 (VList []) [] VNone "csv").
  - reflexivity.
  - reflexivity.
  - discriminate.
  - left. reflexivity.
Defined.

Lemma write_without_storage_options_witness :
  storage_options unconfigured_world = None /\
  write 1 unconfigured_world (VFrame mixed) "out/data.parquet" [] []
  = ([makedirs_call unconfigured_world "out/data.parquet"],
     Ret (Raise (IndexError "list index out of range"))).
Proof.
  split; [reflexivity|].
  apply (proj2 (write_without_storage_options unconfigured_world
                  "out/data.parquet"
                  "out/data.parquet" [] eq_refl 0 mixed [] VNone
                  eq_refl eq_refl)).
  reflexivity.
Defined.

(** X21. The error of a failed parquet write never leaves [write] as it
    is: when its message holds no [column ] the handler fails with
    [IndexError], and when the column the message names is not in the
    table it fails with [KeyError]; no retry is made in either case. *)
Theorem parquet_error_replaced (w : World) (so : value) (filepath : string)
  (kw : kwargs) (fuel : nat) (df : DataFrame) (h : list event)
  (a : value) (e : exn) :
  adj_path (system w) filepath = Ok filepath ->
  list_last (split "." filepath) = Ok "parquet" ->
  storage_options w = Some so ->
  respond w h (makedirs_call w filepath) = Ok a ->
  respond w (h ++ [makedirs_call w filepath])
          (to_parquet_call so filepath kw df) = Raise e ->
  let h2 := (h ++ [makedirs_call w filepath;
                   to_parquet_call so filepath kw df])%list in
  (contains "column " (str_exn e) = false ->
   write (S fuel) w (VFrame df) filepath kw h
   = (h2, Ret (Raise (IndexError "list index out of range")))) /\
  (forall c, named_column e = Ok c -> lookup c (cols df) = None ->
   write (S fuel) w (VFrame df) filepath kw h
   = (h2, Ret (Raise (KeyError c)))).
Proof.
  intros A E S Mk P. cbv zeta.
  rewrite (write_parquet_step w so filepath kw A E S), Mk, P. cbv zeta.
  split.
  - intros C. now rewrite (named_column_absent e C).
  - intros c N L. rewrite N. unfold getitem. now rewrite L.
Qed.

Lemma parquet_error_replaced_witness :
  contains "column " "disk full" = false /\
  write 1 full_disk_world (VFrame mixed) "out.parquet" [] []
  = ([makedirs_call full_disk_world "out.parquet";
      to_parquet_call VNone "out.parquet" [] mixed],
     Ret (Raise (IndexError "list index out of range"))).
Proof.
  split; [reflexivity|].
  apply (proj1 (parquet_error_replaced full_disk_world VNone "out.parquet"
                  [] 0 mixed []
                  VNone (OtherException "disk full")
                  eq_refl eq_refl eq_refl eq_refl eq_refl)).
  reflexivity.
Defined.

(** X22. For a pkl, joblib, yml or yaml path, in a world where no call
    fails, [write] opens the file twice and closes one handle: the
    handle of the first [open] is never closed. *)
Theorem write_opens_twice_closes_once (w : World) (filepath fp : string)
  (kw : kwargs) (fuel : nat) (data : value) (h : list event) (ext : string) :
  adj_path (system w) filepath = Ok fp ->
  list_last (split "." fp) = Ok ext ->
  (forall h' ev, exists v, respond w h' ev = Ok v) ->
  ext = "pkl" \/ ext = "joblib" \/ ext = "yml" \/ ext = "yaml" ->
  exists h',
    write (S fuel) w data filepath kw h = (h', Ret (Ok data)) /\
    List.length (calls_of "open" h')
    = (List.length (calls_of "open" h) + 2)%nat /\
    List.length (calls_of "file.close" h')
    = (List.length (calls_of "file.close" h) + 1)%nat.
Proof.
  intros A E NF X.
  destruct (NF h (makedirs_call w fp)) as (a & Mk).
  write_start w fp A Mk E.
  destruct X as [->|[->|[->| ->]]];
    cbn [str_in existsb write_supported negb String.eqb Ascii.eqb Bool.eqb
         orb andb]; cbv iota;
    unfold bindM, call, ret;
    repeat match goal with
           | |- context [respond w ?h0 ?ev] =>
               let v := fresh "v" in
               let R := fresh "R" in
               destruct (NF h0 ev) as (v & R); rewrite R; clear R
           end;
    (eexists; split; [reflexivity|]);
    unfold calls_of; rewrite !filter_app, !length_app; cbn; lia.
Qed.

Lemma write_opens_twice_closes_once_witness :
  write 1 plain_world (VDict [("a", VInt 1)]) "conf/settings.yaml"
        [("indent", VInt 2)] []
  = ([makedirs_call plain_world "conf/settings.yaml";
      Call "open" [VStr "conf/settings.yaml"; VStr "w"] [];
      Call "open" [VStr "conf/settings.yaml"; VStr "w"] [];
      Call "dict" [VDict [("a", VInt 1)]] [];
      Call "yaml.dump" [VNone; VNone] [];
      Call "file.close" [VNone] []],
     Ret (Ok (VDict [("a", VInt 1)]))) /\
  exists h',
    write 1 plain_world (VDict [("a", VInt 1)]) "conf/settings.yaml"
          [("indent", VInt 2)] []
    = (h', Ret (Ok (VDict [("a", VInt 1)]))) /\
    List.length (calls_of "open" h') = (List.length (calls_of "open" []) + 2)%nat /\
    List.length (calls_of "file.close" h')
    = (List.length (calls_of "file.close" []) + 1)%nat.
Proof.
  split; [reflexivity|].
  apply (write_opens_twice_closes_once plain_world "conf/settings.yaml"
           "conf/settings.yaml" [("indent", VInt 2)] 0
           (VDict [("a", VInt 1)]) [] "yaml").
  - reflexivity.
  - reflexivity.
  - intros h' ev. exists VNone. reflexivity.
  - right. right. right. reflexivity.
Defined.

(** ** [get_connection] *)

(** X23. With fewer than five whitespace-separated fields in the
    credentials file, [get_connection] raises before any login: with no
    field it raises [IndexError] right after reading, and with one to
    four fields it builds the client from the first field and then
    raises [IndexError] (or the exception of the client), without
    generating a one-time password or opening a session. *)
Theorem get_connection_short_credentials (fuel : nat) (w : World)
  (h h1 : list event) (text : string) :
  read (S fuel) w credentials_path None [] h = (h1, Ret (Ok (VStr text))) ->
  (List.length (split_ws text) < 5)%nat ->
  match split_ws text with
  | [] =>
      get_connection (S fuel) w h
      = (h1, Ret (Raise (IndexError "list index out of range")))
  | api_key :: _ =>
      let ev := Call "SmartConnect" [] [("api_key", VStr api_key)] in
      get_connection (S fuel) w h
      = ((h1 ++ [ev])%list,
         Ret (Raise (match respond w h1 ev with
                     | Ok _ => IndexError "list index out of range"
                     | Raise e => e
                     end)))
  end.
Proof.
  intros R L.
  assert (G : get_connection (S fuel) w h
              = connect_with w (split_ws text) h1).
  { unfold get_connection. unfold bindM at 1. rewrite R.
    rewrite bind_lift. reflexivity. }
  destruct (split_ws text) as [|k0 [|k1 [|k2 [|k3 [|k4 rest]]]]];
    try (cbn in L; lia); cbv zeta; rewrite G; try reflexivity;
    unfold connect_with; rewrite bind_lift; cbn [list_index nth_error];
    unfold bindM at 1; unfold call at 1;
    destruct (respond w h1 _); reflexivity.
Qed.

(** X24. With five fields or more, [get_connection] uses the first,
    third, fourth and fifth: the second field and the fields after the
    fifth change neither the calls nor the result. *)
Theorem get_connection_fields_used (fuel : nat) (w : World)
  (h h1 : list event) (text : string)
  (api_key unused client password secret : string) (rest : list string) :
  read (S fuel) w credentials_path None [] h = (h1, Ret (Ok (VStr text))) ->
  split_ws text = api_key :: unused :: client :: password :: secret :: rest ->
  get_connection (S fuel) w h
  = connect_with w [api_key; EmptyString; client; password; secret] h1.
Proof.
  intros R S. unfold get_connection. unfold bindM at 1. rewrite R.
  rewrite bind_lift. cbn [value_split]. rewrite S. reflexivity.
Qed.

Lemma get_connection_short_credentials_witness :
  read 1 (text_world "key id pw") credentials_path None [] []
  = ([Call "open" [VStr credentials_path; VStr "r"] [];
      Call "file.read" [VObject 0] []],
     Ret (Ok (VStr "key id pw"))) /\
  get_connection 1 (text_world "key id pw") []
  = ([Call "open" [VStr credentials_path; VStr "r"] [];
      Call "file.read" [VObject 0] [];
      Call "SmartConnect" [] [("api_key", VStr "key")]],
     Ret (Raise (IndexError "list index out of range"))).
Proof.
  split; [reflexivity|].
  apply (get_connection_short_credentials 0 (text_world "key id pw") []
           [Call "open" [VStr credentials_path; VStr "r"] [];
            Call "file.read" [VObject 0] []] "key id pw").
  - reflexivity.
  - change (split_ws "key id pw") with ["key"; "id"; "pw"]. cbn. lia.
Defined.

Lemma get_connection_fields_used_witness :
  split_ws "key other id pw secret more"
  = ["key"; "other"; "id"; "pw"; "secret"; "more"] /\
  get_connection 1 (text_world "key other id pw secret more") []
  = connect_with (text_world "key other id pw secret more")
      ["key"; EmptyString; "id"; "pw"; "secret"]
      [Call "open" [VStr credentials_path; VStr "r"] [];
       Call "file.read" [VObject 0] []].
Proof.
  split; [reflexivity|].
  apply (get_connection_fields_used 0
           (text_world "key other id pw secret more") []
           [Call "open" [VStr credentials_path; VStr "r"] [];
            Call "file.read" [VObject 0] []]
           "key other id pw secret more" "key" "other" "id" "pw" "secret"
           ["more"]); reflexivity.
Defined.

(** ** The fallback of a spreadsheet sheet *)

Lemma last_split_suffix (stem ext : string) :
  free_of "."%char ext = true ->
  forall cur,
    list_last (split_go "." 0 cur (stem ++ String "."%char ext)) = Ok ext.
Proof.
  intros F. induction stem as [|c stem IH]; intros cur.
  - cbn [append split_go]. rewrite prefix_char, Ascii.eqb_refl.
    cbn [String.length Nat.sub]. rewrite (split_free _ _ F). reflexivity.
  - cbn [append split_go]. rewrite prefix_char.
    destruct (Ascii.eqb "."%char c).
    + cbn [String.length Nat.sub].
      destruct (split_go_nonempty "." (stem ++ String "."%char ext) 0
                  EmptyString) as (x & t & E).
      specialize (IH EmptyString). rewrite E in *.
      rewrite list_last_skip. exact IH.
    + apply IH.
Qed.

(** X25. When [to_excel] fails with a [ValueError] on the only sheet of
    a mapping and every other call succeeds, [write] writes the sheet to
    [<sheet>.parquet] next to the workbook twice, prints its message
    twice, closes the workbook and returns normally: the failure of the
    sheet does not reach the caller. *)
Theorem excel_sheet_fallback (w : World) (filepath fp : string) (kw : kwargs)
  (fuel : nat) (sheet : string) (df : DataFrame) (h : list event)
  (so : value) (msg : string) :
  adj_path (system w) filepath = Ok fp ->
  list_last (split "." fp) = Ok "xlsx" ->
  storage_options w = Some so ->
  let base := os_path_basename w fp in
  let temp := os_path_join w (replace base EmptyString fp) sheet
              ++ ".parquet" in
  adj_path (system w) temp = Ok temp ->
  (forall h' args kw',
     respond w h' (Call "DataFrame.to_excel" args kw')
     = Raise (ValueError msg)) ->
  (forall h' fn args kw',
     fn <> "DataFrame.to_excel" ->
     exists v, respond w h' (Call fn args kw') = Ok v) ->
  exists wr,
    write (S (S fuel)) w (VDict [(sheet, VFrame df)]) filepath kw h
    = ((h ++ [makedirs_call w fp;
              Call "pd.ExcelWriter" [VStr fp] [("storage_options", so)];
              Call "DataFrame.to_excel" [VFrame df; wr; VStr sheet]
                   (("storage_options", so) :: kw);
              makedirs_call w temp;
              to_parquet_call so temp [] df;
              Print [VStr base; VStr sheet; VStr msg;
                     VStr ", saved sheet in parquet"];
              makedirs_call w temp;
              to_parquet_call so temp [] df;
              Print [VStr base; VStr sheet; VStr msg;
                     VStr ", saved sheet in parquet"];
              Call "ExcelWriter.__exit__" [wr] []])%list,
       Ret (Ok (VDict [(sheet, VFrame df)]))).
Proof.
  intros A E Cfg base temp T Fail NF.
  assert (X : list_last (split "." temp) = Ok "parquet").
  { unfold temp, split.
    change ".parquet" with (String "."%char "parquet").
    now apply last_split_suffix. }
  assert (In1 : forall h0,
             write (S fuel) w (VFrame df) temp [] h0
             = ((h0 ++ [makedirs_call w temp;
                        to_parquet_call so temp [] df])%list,
                Ret (Ok (VFrame df)))).
  { intros h0. rewrite (write_parquet_step w so temp [] T X Cfg).
    destruct (NF h0 "os.makedirs"
                 [VStr (os_path_abspath w (os_path_join w temp ".."))]
                 [("exist_ok", VBool true)]) as (a & Mk);
      [discriminate|].
    fold (makedirs_call w temp) in Mk. rewrite Mk.
    destruct (NF (h0 ++ [makedirs_call w temp])%list "DataFrame.to_parquet"
                 [VFrame df; VStr temp] (("storage_options", so) :: []))
      as (b & P); [intros Q; discriminate Q|].
    fold (to_parquet_call so temp [] df) in P. rewrite P. reflexivity. }
  destruct (NF h "os.makedirs"
               [VStr (os_path_abspath w (os_path_join w fp ".."))]
               [("exist_ok", VBool true)]) as (a & Mk); [discriminate|].
  fold (makedirs_call w fp) in Mk.
  destruct (NF (h ++ [makedirs_call w fp])%list "pd.ExcelWriter" [VStr fp]
               [("storage_options", so)]) as (wr & W); [discriminate|].
  exists wr.
  remember (S fuel) as n eqn:N.
  write_start w fp A Mk E.
  cbn [str_in existsb write_supported negb String.eqb Ascii.eqb Bool.eqb
       orb andb]. cbv iota.
  unfold get_storage_options. rewrite Cfg.
  unfold bindM at 1. unfold ret at 1.
  unfold bindM at 1. unfold call at 1. rewrite W.
  unfold bindM at 1. unfold finally.
  cbn [map fst for_each]. unfold bindM at 1. unfold bindM at 1.
  unfold lift at 1. unfold dict_get. cbn [lookup]. rewrite String.eqb_refl.
  unfold try_catch. unfold bindM at 1. unfold with_storage at 1.
  unfold get_storage_options. rewrite Cfg. unfold bindM at 1. unfold ret at 1.
  unfold ret at 1. unfold bindM at 1. unfold call at 1.
  rewrite Fail. cbn [is_ValueError str_exn].
  fold base. fold temp.
  unfold bindM at 1. rewrite In1.
  unfold bindM at 1. unfold print at 1.
  unfold bindM at 1. rewrite In1.
  unfold bindM at 1. unfold print at 1.
  unfold ret at 1. unfold ret at 1. unfold call at 1.
  match goal with
  | |- context [respond w ?h0 (Call "ExcelWriter.__exit__" ?args ?k)] =>
      destruct (NF h0 "ExcelWriter.__exit__" args k) as (x & Ex);
      [discriminate|]
  end.
  rewrite Ex. unfold ret. cbn [update]. rewrite String.eqb_refl.
  rewrite <- !app_assoc. reflexivity.
Qed.

Lemma excel_sheet_fallback_witness :
  exists wr,
    write 2 excel_world (VDict [("Sheet1", VFrame mixed)]) "out/book.xlsx"
          [] []
    = ([makedirs_call excel_world "out/book.xlsx";
        Call "pd.ExcelWriter" [VStr "out/book.xlsx"]
             [("storage_options", VNone)];
        Call "DataFrame.to_excel" [VFrame mixed; wr; VStr "Sheet1"]
             [("storage_options", VNone)];
        makedirs_call excel_world "out/Sheet1.parquet";
        to_parquet_call VNone "out/Sheet1.parquet" [] mixed;
        Print [VStr "book.xlsx"; VStr "Sheet1"; VStr "cannot write";
               VStr ", saved sheet in parquet"];
        makedirs_call excel_world "out/Sheet1.parquet";
        to_parquet_call VNone "out/Sheet1.parquet" [] mixed;
        Print [VStr "book.xlsx"; VStr "Sheet1"; VStr "cannot write";
               VStr ", saved sheet in parquet"];
        Call "ExcelWriter.__exit__" [wr] []],
       Ret (Ok (VDict [("Sheet1", VFrame mixed)]))).
Proof.
  apply (excel_sheet_fallback excel_world "out/book.xlsx" "out/book.xlsx" []
           0 "Sheet1" mixed [] VNone "cannot write").
  - reflexivity.
  - reflexivity.
  - reflexivity.
  - reflexivity.
  - intros h' args kw'. reflexivity.
  - intros h' fn args kw' N. exists VNone. cbn.
    destruct (String.eqb_spec fn "DataFrame.to_excel"); [contradiction|].
    reflexivity.
Defined.

(** X26. Only a [ValueError] of [to_excel] is recovered: when the call
    fails on a sheet with another exception, [write] writes no parquet
    file and prints nothing; it closes the workbook and the exception
    reaches the caller. *)
Theorem excel_sheet_other_error (w : World) (filepath fp : string)
  (kw : kwargs) (fuel : nat) (sheet : string) (df : DataFrame)
  (rest : list (string * value)) (h : list event)
  (so a wr x : value) (e : exn) :
  adj_path (system w) filepath = Ok fp ->
  list_last (split "." fp) = Ok "xlsx" ->
  storage_options w = Some so ->
  let h1 := (h ++ [makedirs_call w fp])%list in
  let h2 := (h1 ++ [Call "pd.ExcelWriter" [VStr fp]
                         [("storage_options", so)]])%list in
  let h3 := (h2 ++ [Call "DataFrame.to_excel" [VFrame df; wr; VStr sheet]
                         (("storage_options", so) :: kw)])%list in
  respond w h (makedirs_call w fp) = Ok a ->
  respond w h1 (Call "pd.ExcelWriter" [VStr fp] [("storage_options", so)])
  = Ok wr ->
  respond w h2 (Call "DataFrame.to_excel" [VFrame df; wr; VStr sheet]
                     (("storage_options", so) :: kw)) = Raise e ->
  is_ValueError e = false ->
  respond w h3 (Call "ExcelWriter.__exit__" [wr] []) = Ok x ->
  write (S fuel) w (VDict ((sheet, VFrame df) :: rest)) filepath kw h
  = ((h3 ++ [Call "ExcelWriter.__exit__" [wr] []])%list, Ret (Raise e)).
Proof.
  intros A E Cfg h1 h2 h3 Mk W X NV Ex.
  write_start w fp A Mk E.
  cbn [str_in existsb write_supported negb String.eqb Ascii.eqb Bool.eqb
       orb andb]. cbv iota.
  unfold get_storage_options. rewrite Cfg.
  unfold bindM at 1. unfold ret at 1.
  unfold bindM at 1. unfold call at 1. fold h1. rewrite W.
  unfold bindM at 1. unfold finally.
  cbn [map fst for_each]. unfold bindM at 1. unfold bindM at 1.
  unfold lift at 1. unfold dict_get. cbn [lookup]. rewrite String.eqb_refl.
  unfold try_catch. unfold bindM at 1. unfold with_storage at 1.
  unfold get_storage_options. rewrite Cfg. unfold bindM at 1. unfold ret at 1.
  unfold ret at 1. unfold bindM at 1. unfold call at 1.
  fold h2. rewrite X, NV. fold h3.
  unfold call. rewrite Ex. reflexivity.
Qed.

Lemma excel_sheet_other_error_witness :
  write 1 type_error_world
        (VDict [("Sheet1", VFrame mixed); ("Sheet2", VFrame mixed)])
        "out/book.xlsx" [] []
  = ([makedirs_call type_error_world "out/book.xlsx";
      Call "pd.ExcelWriter" [VStr "out/book.xlsx"] [("storage_options", VNone)];
      Call "DataFrame.to_excel" [VFrame mixed; VNone; VStr "Sheet1"]
           [("storage_options", VNone)];
      Call "ExcelWriter.__exit__" [VNone] []],
     Ret (Raise (TypeError "unsupported cell"))).
Proof.
  apply (excel_sheet_other_error type_error_world
           "out/book.xlsx" "out/book.xlsx" [] 0 "Sheet1" mixed
           [("Sheet2", VFrame mixed)] [] VNone VNone VNone VNone
           (TypeError "unsupported cell")); reflexivity.
Defined.

(** ** The layout of a sheet bundle *)


Section Bundle.

Variables (w : World) (so wr : value) (sheet : string) (kw : kwargs).
Variables (key : string) (advance : DataFrame -> Z).
Hypothesis configured : storage_options w = Some so.
Hypothesis no_failure : forall h ev, exists v, respond w h ev = Ok v.



End Bundle.



(** ** Queries and [read] *)

(** X28. A query given with [conn] reaches the database only when its
    text has an extension.  With [conn] among the keyword arguments and
    no [concat]: when the adjusted text has an extension, [read] makes one
    call, [pd.read_sql], with the text, the connection and every keyword
    argument ([conn] itself and [model] included), and returns its answer
    as it is, whatever the extension; when it has none, the text is taken
    for a directory of parquet files: [read] calls [pd.read_parquet] on
    it and never [pd.read_sql]. *)
Theorem read_query_needs_extension (fuel : nat) (w : World)
  (filepath fp : string) (kw : kwargs) (conn : value) (h : list event) :
  adj_path (system w) filepath = Ok fp ->
  lookup "conn" kw = Some conn ->
  has_key "sql" kw = false ->
  has_key "con" kw = false ->
  has_key "storage_options" kw = false ->
  let query :=
    Call "pd.read_sql" [] (("sql", VStr fp) :: ("con", conn) :: kw) in
  let run := read (S fuel) w filepath None kw h in
  (read_ext w fp <> EmptyString ->
   run = ((h ++ [query])%list, Ret (respond w h query))) /\
  (read_ext w fp = EmptyString ->
   exists tail,
     fst run = (h ++ tail)%list /\
     calls_of "pd.read_sql" tail = [] /\
     forall so,
       storage_options w = Some so ->
       exists rest,
         tail = Call "pd.read_parquet" [VStr fp]
                     (("storage_options", so) :: kw) :: rest).
Proof.
  intros A C _ _ _ query run. unfold run. cbn [read].
  rewrite bind_lift, A. cbv zeta. split.
  - intros N. apply String.eqb_neq in N. rewrite N.
    unfold has_key, dict_get. rewrite C. rewrite bind_lift. reflexivity.
  - intros E. rewrite E. cbn [String.eqb].
    change (negb (is_parquet (ConcatStr "parquet"))) with false. cbv iota.
    unfold with_storage, get_storage_options.
    destruct (storage_options w) as [so|].
    + unfold bindM at 1. unfold bindM at 1. unfold ret at 1. unfold ret at 1.
      unfold bindM at 1. unfold call at 1.
      destruct (respond w h (Call "pd.read_parquet" [VStr fp]
                                  (("storage_options", so) :: kw)))
        as [df|e].
      * unfold read_preprocess. destruct df as [| | | |df| | |];
          try (eexists; split; [reflexivity|]; split; [reflexivity|];
               intros so' [= <-]; eexists; reflexivity).
        destruct (str_in "date" (columns (drop_column "Unnamed: 0" df))).
        -- unfold call. cbn [fst]. rewrite <- app_assoc.
           eexists; split; [reflexivity|]; split; [reflexivity|].
           intros so' [= <-]. eexists; reflexivity.
        -- eexists; split; [reflexivity|]; split; [reflexivity|].
           intros so' [= <-]. eexists; reflexivity.
      * eexists; split; [reflexivity|]; split; [reflexivity|].
        intros so' [= <-]. eexists; reflexivity.
    + exists []. split; [cbn; now rewrite app_nil_r|].
      split; [reflexivity|]. intros so' [=].
Qed.

Lemma read_query_needs_extension_witness :
  read 1 plain_world "select * from sales.orders" None
       [("conn", VObject 1)] []
  = ([Call "pd.read_sql" []
           [("sql", VStr "select * from sales.orders");
            ("con", VObject 1); ("conn", VObject 1)]],
     Ret (Ok VNone))
  /\
  exists tail,
    fst (read 1 plain_world "select * from orders" None
              [("conn", VObject 1)] []) = tail /\
    calls_of "pd.read_sql" tail = [] /\
    forall so,
      storage_options plain_world = Some so ->
      exists rest,
        tail = Call "pd.read_parquet" [VStr "select * from orders"]
                    [("storage_options", so); ("conn", VObject 1)] :: rest.
Proof.
  split.
  - apply (proj1 (read_query_needs_extension 0 plain_world
                    "select * from sales.orders" "select * from sales.orders"
                    [("conn", VObject 1)] (VObject 1) []
                    eq_refl eq_refl eq_refl eq_refl eq_refl)).
    vm_compute. discriminate.
  - apply (proj2 (read_query_needs_extension 0 plain_world
                    "select * from orders" "select * from orders"
                    [("conn", VObject 1)] (VObject 1) []
                    eq_refl eq_refl eq_refl eq_refl eq_refl)).
    reflexivity.
Defined.

(** ** POSIX paths on a Windows host *)

Lemma prefix_cons (c : ascii) (p s : string) :
  String.prefix (String c p) (String c s) = String.prefix p s.
Proof.
  cbn [String.prefix]. destruct (ascii_dec c c) as [_|N]; [reflexivity|].
  now contradiction N.
Qed.

Lemma replace_go_miss (old new : string) (a : ascii) (s : string) :
  String.prefix old (String a s) = false ->
  replace_go old new 0 (String a s) = String a (replace_go old new 0 s).
Proof. intros P. cbn [replace_go]. now rewrite P. Qed.

(** X29. On a Windows host an absolute POSIX path outside [/mnt/] gets
    no drive letter: [adj_path] turns [/] followed by a non-empty text
    that does not start with [mnt/] into a path that starts with a colon
    and a backslash, which neither [is_win] nor [is_linux] accepts. *)
Theorem adj_path_windows_outside_mnt (system : string) (c : ascii)
  (s : string) :
  lower system = "windows" ->
  startswith "mnt/" (String c s) = false ->
  exists rest,
    let q := String ":" (String backslash rest) in
    adj_path system (String "/" (String c s)) = Ok q /\
    is_win q = Ok false /\
    is_linux q = false.
Proof.
  intros S N.
  assert (W : is_win (String "/" (String c s)) = Ok false).
  { unfold is_win, char_at. cbn [get bind].
    destruct (Ascii.eqb c ":"%char); reflexivity. }
  unfold adj_path. rewrite W. cbn [bind].
  assert (L : is_linux (String "/" (String c s)) = true).
  { unfold is_linux, startswith. now rewrite prefix_char. }
  rewrite L, S. cbn [String.eqb Ascii.eqb Bool.eqb andb]. cbv iota.
  unfold linux_to_win. rewrite W. cbn [bind]. cbv zeta.
  unfold replace. rewrite replace_go_miss
    by (rewrite prefix_cons; exact N).
  unfold split. cbn [split_go]. rewrite prefix_char, Ascii.eqb_refl.
  cbn [String.length Nat.sub].
  destruct (split_go_nonempty "/" (replace_go "/mnt/" EmptyString 0
                                              (String c s)) 0 EmptyString)
    as (x & t & ->).
  cbn [list_first list_set_first bind rev rev_onto upper map_chars append].
  unfold join. cbn [String.concat append bs].
  eexists. cbv zeta. split; [reflexivity|]. split; reflexivity.
Qed.

Lemma adj_path_windows_outside_mnt_witness :
  exists rest,
    let q := String ":" (String backslash rest) in
    adj_path "Windows" "/home/u/data.csv" = Ok q /\
    is_win q = Ok false /\
    is_linux q = false.
Proof.
  apply (adj_path_windows_outside_mnt "Windows" "h" "ome/u/data.csv");
    reflexivity.
Defined.
